(** * A chat-scoped retrieval service: documents, chunks, search, answers

    Shallow embedding of [backend/document_processor.py],
    [backend/rag_system.py], [backend/database.py] and the request
    handlers of [backend/main.py], with the properties the specification
    states about them.

    Conventions.
    - A Python [str] is a [string]; one character stands for one code
      point below 256.  [bytes] are strings too.
    - A Python exception is a value of [Exn]; a call that may raise
      returns a [Result].
    - The libraries the service calls (PyPDF2, python-docx, the UTF-8
      codec, langchain's splitter, the sentence-transformers encoder,
      pgvector's distance operator, the [uuid] constructor, the Ollama
      client) are the fields of the class [Collaborators]; every
      definition and theorem is parametric in them.
    - A database session is a committed store plus the rows added since
      the last commit; a request that ends in an exception leaves the
      committed store and drops the pending rows (the session is closed
      by [get_db]). *)

From Stdlib Require Import List String Ascii Bool Arith PeanoNat NArith ZArith QArith Lia.
From Stdlib Require Import Qabs Lqa Sorting.Sorted.
From Stdlib Require Import Sorting.Permutation.
Import ListNotations.
Open Scope string_scope.
Open Scope nat_scope.

Set Implicit Arguments.

(* ------------------------------------------------------------------ *)
(** ** Python values *)

Module Py.

(** [str.isspace] on one character (code points below 256). *)
Definition isspace (c : ascii) : bool :=
  let n := nat_of_ascii c in
  ((9 <=? n) && (n <=? 13)) || ((28 <=? n) && (n <=? 32))
  || (n =? 133) || (n =? 160).

Fixpoint lstrip (s : string) : string :=
  match s with
  | EmptyString => EmptyString
  | String c s' => if isspace c then lstrip s' else s
  end.

Fixpoint rstrip (s : string) : string :=
  match s with
  | EmptyString => EmptyString
  | String c s' =>
      match rstrip s' with
      | EmptyString => if isspace c then EmptyString else String c EmptyString
      | r => String c r
      end
  end.

(** [s.strip()] *)
Definition strip (s : string) : string := lstrip (rstrip s).

(** [len(s)] *)
Definition len (s : string) : nat := String.length s.

(** [s.endswith(suffix)] *)
Definition endswith (s suffix : string) : bool :=
  (String.length suffix <=? String.length s)
  && String.eqb
       (substring (String.length s - String.length suffix)
                  (String.length suffix) s)
       suffix.

(** [x in xs] for a list of strings *)
Definition contains (x : string) (xs : list string) : bool :=
  existsb (String.eqb x) xs.

Definition digit (n : nat) : ascii := ascii_of_nat (48 + n).

Fixpoint str_of_nat_fuel (fuel n : nat) (acc : string) : string :=
  match fuel with
  | O => acc
  | S fuel' =>
      let acc' := String (digit (n mod 10)) acc in
      if n / 10 =? 0 then acc' else str_of_nat_fuel fuel' (n / 10) acc'
  end.

(** [str(n)] for a non-negative integer *)
Definition str_of_nat (n : nat) : string := str_of_nat_fuel (S n) n "".

(** Exceptions the handlers raise or meet. *)
Inductive Exn : Type :=
| Exception (msg : string)
| ValueError (msg : string)
| HTTPException (status_code : nat) (detail : string).

(** [str(e)] *)
Definition str (e : Exn) : string :=
  match e with
  | Exception msg => msg
  | ValueError msg => msg
  | HTTPException status detail => str_of_nat status ++ ": " ++ detail
  end.

Inductive Result (A : Type) : Type :=
| Ok (a : A)
| Raise (e : Exn).
Arguments Ok {A} a.
Arguments Raise {A} e.

Definition bind {A B} (r : Result A) (k : A -> Result B) : Result B :=
  match r with
  | Ok a => k a
  | Raise e => Raise e
  end.

End Py.
Import Py.

Notation "x <- r ;; k" := (Py.bind r (fun x => k))
  (at level 61, r at next level, right associativity).

Definition bytes := string.
Definition UUID := N.
Definition Embedding := list Q.
Definition datetime := N.

(* ------------------------------------------------------------------ *)
(** ** The libraries behind the service *)

(** [RecursiveCharacterTextSplitter(chunk_size, chunk_overlap, separators)] *)
Record RecursiveCharacterTextSplitter : Type := {
  ts_chunk_size : nat;
  ts_chunk_overlap : nat;
  ts_separators : list string
}.

Class Collaborators : Type := {
  (** [page.extract_text()] of each page of [PyPDF2.PdfReader(content)] *)
  PdfReader_pages : bytes -> Result (list string);
  (** [paragraph.text] of each paragraph of [docx.Document(content)] *)
  docx_paragraphs : bytes -> Result (list string);
  (** [content.decode('utf-8')] *)
  decode_utf8 : bytes -> Result string;
  (** [splitter.split_text(text)] *)
  split_text : RecursiveCharacterTextSplitter -> string -> Result (list string);
  (** [SentenceTransformer.encode(text).tolist()] *)
  encode : string -> Result Embedding;
  (** pgvector's [<->] between a stored embedding and the query vector *)
  l2_distance : Embedding -> Embedding -> Q;
  (** [uuid.UUID(s)] *)
  uuid_UUID : string -> Result UUID;
  (** the database's reading of a text parameter compared with a uuid
      column; [None] when the statement is rejected for it *)
  pg_uuid_in : string -> option UUID;
  (** the error, if any, the database raises while running the
      similarity statement (extension missing, index unavailable, ...) *)
  execute_fault : option Exn;
  (** [ollama.Client().chat(model, messages=[user prompt], options)]
      ['message']['content'] *)
  ollama_chat : string -> string -> Result string
}.

(* ------------------------------------------------------------------ *)
(** ** document_processor.py *)

Record DocumentProcessor : Type := {
  chunk_size : nat;
  chunk_overlap : nat;
  text_splitter : RecursiveCharacterTextSplitter
}.

(** [DocumentProcessor.__init__] *)
Definition DocumentProcessor_init (chunk_size chunk_overlap : nat)
  : DocumentProcessor :=
  {| chunk_size := chunk_size;
     chunk_overlap := chunk_overlap;
     text_splitter :=
       {| ts_chunk_size := chunk_size;
          ts_chunk_overlap := chunk_overlap;
          ts_separators :=
            [String "010" (String "010" ""); String "010" ""; ". "; " "; ""] |} |}.

(** The processor the application builds: [DocumentProcessor()] *)
Definition doc_processor : DocumentProcessor := DocumentProcessor_init 1000 200.

(** The test of the list comprehension in [chunk_text] *)
Definition long_enough (chunk : string) : bool := 50 <? len (strip chunk).

Section DocumentProcessing.
Context `{Collaborators}.

Definition process_pdf (file_content : bytes) : Result string :=
  match PdfReader_pages file_content with
  | Ok pages =>
      Ok (strip (fold_left (fun text page => text ++ page ++ String "010" "")
                           pages ""))
  | Raise e => Raise (Exception ("Error processing PDF: " ++ str e))
  end.

Definition process_docx (file_content : bytes) : Result string :=
  match docx_paragraphs file_content with
  | Ok paragraphs =>
      Ok (strip (fold_left (fun text p => text ++ p ++ String "010" "")
                           paragraphs ""))
  | Raise e => Raise (Exception ("Error processing DOCX: " ++ str e))
  end.

Definition chunk_text (self : DocumentProcessor) (text : string)
  : Result (list string) :=
  match split_text (text_splitter self) text with
  | Ok chunks => Ok (filter long_enough chunks)
  | Raise e => Raise (Exception ("Error chunking text: " ++ str e))
  end.

End DocumentProcessing.

(* ------------------------------------------------------------------ *)
(** ** database.py *)

Record Chat : Type := {
  c_id : UUID;
  c_title : string;
  c_created_at : datetime;
  c_updated_at : datetime
}.

Record ChatMessage : Type := {
  m_id : UUID;
  m_chat_id : UUID;
  m_message : string;
  m_response : string;
  m_timestamp : datetime
}.

Record Document : Type := {
  d_id : UUID;
  d_chat_id : UUID;
  d_filename : string;
  d_content : string;
  d_upload_date : datetime
}.

Record DocumentChunk : Type := {
  dc_id : UUID;
  dc_chat_id : UUID;
  dc_document_id : UUID;
  dc_chunk_text : string;
  dc_chunk_index : nat;
  dc_embedding : Embedding
}.

(** The committed tables, in insertion order, and the source of primary
    keys.  [uuid.uuid4] draws a random identifier; the model draws the
    next value of a counter, which is all a primary key has to be:
    fresh. *)
Record DB : Type := {
  chats : list Chat;
  chat_messages : list ChatMessage;
  documents : list Document;
  document_chunks : list DocumentChunk;
  uuid4_next : UUID
}.

(** What a session holds until [commit]: objects passed to [db.add]
    and attribute changes of loaded objects. *)
Inductive Pending : Type :=
| AddChat (c : Chat)
| AddMessage (m : ChatMessage)
| AddDocument (d : Document)
| AddChunk (dc : DocumentChunk)
| TouchChat (id : UUID) (now : datetime).

Record Session : Type := {
  store : DB;
  pending : list Pending
}.

(** [SessionLocal()] *)
Definition open_session (db : DB) : Session := {| store := db; pending := [] |}.

Definition set_updated_at (id : UUID) (now : datetime) (c : Chat) : Chat :=
  if N.eqb (c_id c) id
  then {| c_id := c_id c; c_title := c_title c;
          c_created_at := c_created_at c; c_updated_at := now |}
  else c.

Definition flush (db : DB) (p : Pending) : DB :=
  match p with
  | AddChat c =>
      {| chats := chats db ++ [c]; chat_messages := chat_messages db;
         documents := documents db; document_chunks := document_chunks db;
         uuid4_next := uuid4_next db |}
  | AddMessage m =>
      {| chats := chats db; chat_messages := chat_messages db ++ [m];
         documents := documents db; document_chunks := document_chunks db;
         uuid4_next := uuid4_next db |}
  | AddDocument d =>
      {| chats := chats db; chat_messages := chat_messages db;
         documents := documents db ++ [d]; document_chunks := document_chunks db;
         uuid4_next := uuid4_next db |}
  | AddChunk dc =>
      {| chats := chats db; chat_messages := chat_messages db;
         documents := documents db; document_chunks := document_chunks db ++ [dc];
         uuid4_next := uuid4_next db |}
  | TouchChat id now =>
      {| chats := map (set_updated_at id now) (chats db);
         chat_messages := chat_messages db;
         documents := documents db; document_chunks := document_chunks db;
         uuid4_next := uuid4_next db |}
  end.

(** [db.commit()] *)
Definition db_commit (s : Session) : Session :=
  {| store := fold_left flush (pending s) (store s); pending := [] |}.

(** [uuid.uuid4()], the column default of every primary key.  The
    model draws it when the object is added rather than when it is
    flushed; no handler reads a key in between. *)
Definition uuid4 (s : Session) : UUID * Session :=
  let db := store s in
  (uuid4_next db,
   {| store := {| chats := chats db; chat_messages := chat_messages db;
                  documents := documents db;
                  document_chunks := document_chunks db;
                  uuid4_next := N.succ (uuid4_next db) |};
      pending := pending s |}).

(** [db.add(obj)] for an object still waiting for its primary key *)
Definition db_add (mk : UUID -> Pending) (s : Session) : UUID * Session :=
  let '(id, s') := uuid4 s in
  (id, {| store := store s'; pending := pending s' ++ [mk id] |}).

(* ------------------------------------------------------------------ *)
(** ** rag_system.py *)

Record RAGSystem : Type := {
  model_name : string;
  embedding_model_name : string
}.

(** [RAGSystem()] *)
Definition rag_system : RAGSystem :=
  {| model_name := "llama3"; embedding_model_name := "all-MiniLM-L6-v2" |}.

(** One dictionary of the list [get_relevant_chunks] returns *)
Record RelevantChunk : Type := {
  text : string;
  chunk_index : nat;
  filename : string;
  similarity_score : Q
}.

(** [ORDER BY key]: a stable insertion sort, ties in table order *)
Section OrderBy.
Variable A : Type.
Variable key : A -> Q.

Fixpoint insert_by (x : A) (l : list A) : list A :=
  match l with
  | [] => [x]
  | y :: l' => if Qle_bool (key x) (key y) then x :: l else y :: insert_by x l'
  end.

Fixpoint order_by (l : list A) : list A :=
  match l with
  | [] => []
  | x :: l' => insert_by x (order_by l')
  end.
End OrderBy.

(** The order of [ORDER BY key] *)
Definition by_key (A : Type) (key : A -> Q) (x y : A) : Prop := (key x <= key y)%Q.

Definition nl : string := String "010" "".

Section Retrieval.
Context `{Collaborators}.

Definition get_embedding (text : string) : Result Embedding :=
  match encode text with
  | Ok embedding => Ok embedding
  | Raise e => Raise e
  end.

(** [FROM document_chunks dc JOIN documents d ON dc.document_id = d.id] *)
Definition joined (db : DB) : list (DocumentChunk * Document) :=
  flat_map
    (fun dc =>
       map (pair dc)
           (filter (fun d => N.eqb (dc_document_id dc) (d_id d)) (documents db)))
    (document_chunks db).

(** [dc.embedding <-> :query_embedding] *)
Definition distance (query_embedding : Embedding)
           (row : DocumentChunk * Document) : Q :=
  l2_distance (dc_embedding (fst row)) query_embedding.

(** The rows of the similarity statement:
    [WHERE dc.chat_id = :chat_id ORDER BY distance LIMIT :limit] *)
Definition similarity_query (query_embedding : Embedding) (chat_id : UUID)
           (limit : nat) (db : DB) : list (DocumentChunk * Document) :=
  firstn limit
    (order_by (distance query_embedding)
       (filter (fun row => N.eqb (dc_chat_id (fst row)) chat_id) (joined db))).

(** [db.execute(similarity_query, params)] *)
Definition db_execute (query_embedding : Embedding) (chat_id : string)
           (limit : nat) (db : Session)
  : Result (list (DocumentChunk * Document)) :=
  match execute_fault with
  | Some e => Raise e
  | None =>
      match pg_uuid_in chat_id with
      | None => Raise (Exception "invalid input syntax for type uuid")
      | Some id => Ok (similarity_query query_embedding id limit (store db))
      end
  end.

(** The dictionary built from one row of the similarity statement *)
Definition scored (query_embedding : Embedding)
           (row : DocumentChunk * Document) : RelevantChunk :=
  {| text := dc_chunk_text (fst row);
     chunk_index := dc_chunk_index (fst row);
     filename := d_filename (snd row);
     similarity_score := 1 - distance query_embedding row |}.

(** The dictionary the fallback builds from one chunk *)
Definition unscored (chunk : DocumentChunk) : RelevantChunk :=
  {| text := dc_chunk_text chunk;
     chunk_index := dc_chunk_index chunk;
     filename := "unknown";
     similarity_score := 1 # 2 |}.

(** The [try] block of [get_relevant_chunks] *)
Definition similarity_search (query chat_id : string) (db : Session)
           (top_k : nat) : Result (list RelevantChunk) :=
  query_embedding <- get_embedding query ;;
  result <- db_execute query_embedding chat_id top_k db ;;
  Ok (map (scored query_embedding) result).

(** [db.query(DocumentChunk).filter(chat_id == id).limit(top_k).all()] *)
Definition chunks_of_chat (id : UUID) (top_k : nat) (db : Session)
  : list DocumentChunk :=
  firstn top_k
    (filter (fun dc => N.eqb (dc_chat_id dc) id) (document_chunks (store db))).

(** The [except] block of [get_relevant_chunks] *)
Definition fallback_search (chat_id : string) (db : Session) (top_k : nat)
  : Result (list RelevantChunk) :=
  id <- uuid_UUID chat_id ;;
  Ok (map unscored (chunks_of_chat id top_k db)).

Definition get_relevant_chunks (query chat_id : string) (db : Session)
           (top_k : nat) : Result (list RelevantChunk) :=
  match similarity_search query chat_id db top_k with
  | Ok relevant_chunks => Ok relevant_chunks
  | Raise _ => fallback_search chat_id db top_k
  end.

(** The loop that builds [context] in [generate_response] *)
Fixpoint build_context (i : nat) (relevant_chunks : list RelevantChunk)
         (context : string) : string :=
  match relevant_chunks with
  | [] => context
  | chunk :: rest =>
      build_context (S i) rest
        (context ++ "Document " ++ str_of_nat (i + 1) ++ " ("
                 ++ filename chunk ++ "):" ++ nl ++ text chunk ++ nl ++ nl)
  end.

Definition build_prompt (query : string)
           (relevant_chunks : list RelevantChunk) : string :=
  "Based on the following context, please answer the question. If the answer cannot be found in the context, please say so."
    ++ nl ++ nl ++ "Context:" ++ nl ++ build_context 0 relevant_chunks ""
    ++ nl ++ nl ++ "Question: " ++ query ++ nl ++ nl ++ "Answer:".

Definition generate_response (self : RAGSystem) (query : string)
           (relevant_chunks : list RelevantChunk) : string :=
  match ollama_chat (model_name self) (build_prompt query relevant_chunks) with
  | Ok content => content
  | Raise e =>
      "I apologize, but I encountered an error while generating a response: "
        ++ str e
  end.

End Retrieval.

(* ------------------------------------------------------------------ *)
(** ** main.py *)

Record UploadFile : Type := {
  uf_filename : string;
  uf_content : bytes
}.

Record UploadedDoc : Type := {
  up_id : UUID;
  up_filename : string;
  up_chunks_count : nat
}.

Record SkippedDoc : Type := {
  sk_filename : string;
  sk_reason : string
}.

Record UploadResponse : Type := {
  up_message : string;
  uploaded : list UploadedDoc;
  skipped : list SkippedDoc
}.

Record QueryRequest : Type := {
  query : string;
  chat_id : string
}.

Record QueryResponse : Type := {
  q_query : string;
  q_response : string;
  q_sources : nat
}.

(** How one turn of the upload loop ends when it does not raise *)
Inductive FileOutcome : Type :=
| Skipped (entry : SkippedDoc)
| Uploaded (entry : UploadedDoc).

Definition no_documents_response : string :=
  "I don't have any documents uploaded for this chat yet. Please upload some documents first to ask questions about them.".

Definition already_exists : string := "File already exists in this chat".
Definition unsupported_type : string := "Unsupported file type".

Section Handlers.
Context `{Collaborators}.

(** The extraction step of the loop body; [Ok None] is the [else]
    branch of the file-type test. *)
Definition extract_text (file : UploadFile) : Result (option string) :=
  if endswith (uf_filename file) ".pdf" then
    text_content <- process_pdf (uf_content file) ;; Ok (Some text_content)
  else if endswith (uf_filename file) ".docx" then
    text_content <- process_docx (uf_content file) ;; Ok (Some text_content)
  else if endswith (uf_filename file) ".txt" then
    text_content <- decode_utf8 (uf_content file) ;; Ok (Some text_content)
  else Ok None.

(** [for i, chunk in enumerate(chunks): ... db.add(doc_chunk)] *)
Fixpoint add_chunks (chat : UUID) (doc : UUID) (i : nat)
         (chunks : list string) (db : Session) : Result unit * Session :=
  match chunks with
  | [] => (Ok tt, db)
  | chunk :: rest =>
      match get_embedding chunk with
      | Raise e => (Raise e, db)
      | Ok embedding =>
          let '(_, db') :=
            db_add (fun id =>
                      AddChunk {| dc_id := id; dc_chat_id := chat;
                                  dc_document_id := doc;
                                  dc_chunk_text := chunk;
                                  dc_chunk_index := i;
                                  dc_embedding := embedding |}) db in
          add_chunks chat doc (S i) rest db'
      end
  end.

(** The body of the [try] in the upload loop, for one file *)
Definition upload_file (chat : UUID) (existing_filenames : list string)
           (now : datetime) (file : UploadFile) (db : Session)
  : Result FileOutcome * Session :=
  if contains (uf_filename file) existing_filenames then
    (Ok (Skipped {| sk_filename := uf_filename file;
                    sk_reason := already_exists |}), db)
  else
    match extract_text file with
    | Raise e => (Raise e, db)
    | Ok None =>
        (Ok (Skipped {| sk_filename := uf_filename file;
                        sk_reason := unsupported_type |}), db)
    | Ok (Some text_content) =>
        let '(doc_id, db1) :=
          db_add (fun id =>
                    AddDocument {| d_id := id; d_chat_id := chat;
                                   d_filename := uf_filename file;
                                   d_content := text_content;
                                   d_upload_date := now |}) db in
        let db2 := db_commit db1 in
        match chunk_text doc_processor text_content with
        | Raise e => (Raise e, db2)
        | Ok chunks =>
            match add_chunks chat doc_id 0 chunks db2 with
            | (Raise e, db3) => (Raise e, db3)
            | (Ok _, db3) =>
                (Ok (Uploaded {| up_id := doc_id;
                                 up_filename := uf_filename file;
                                 up_chunks_count := List.length chunks |}),
                 db_commit db3)
            end
        end
    end.

(** [for file in files: try: ... except Exception as e: raise HTTPException(500, ...)] *)
Fixpoint upload_loop (chat : UUID) (existing_filenames : list string)
         (now : datetime) (files : list UploadFile) (db : Session)
         (uploaded_docs : list UploadedDoc) (skipped_docs : list SkippedDoc)
  : Result (list UploadedDoc * list SkippedDoc) * Session :=
  match files with
  | [] => (Ok (uploaded_docs, skipped_docs), db)
  | file :: rest =>
      match upload_file chat existing_filenames now file db with
      | (Ok (Skipped entry), db') =>
          upload_loop chat existing_filenames now rest db'
                      uploaded_docs (skipped_docs ++ [entry])
      | (Ok (Uploaded entry), db') =>
          upload_loop chat existing_filenames now rest db'
                      (uploaded_docs ++ [entry]) skipped_docs
      | (Raise e, db') =>
          (Raise (HTTPException 500
                    ("Error processing " ++ uf_filename file ++ ": " ++ str e)),
           db')
      end
  end.

(** [Document.filename] of the chat's documents *)
Definition filenames_of_chat (chat : UUID) (db : DB) : list string :=
  map d_filename (filter (fun d => N.eqb (d_chat_id d) chat) (documents db)).

(** [POST /upload-documents/{chat_id}]: the response, and the database
    the request leaves behind *)
Definition upload_documents (chat_id : string) (files : list UploadFile)
           (now : datetime) (db : DB) : Result UploadResponse * DB :=
  match uuid_UUID chat_id with
  | Raise e => (Raise e, db)
  | Ok chat =>
      match find (fun c => N.eqb (c_id c) chat) (chats db) with
      | None => (Raise (HTTPException 404 "Chat not found"), db)
      | Some _ =>
          let existing_filenames := filenames_of_chat chat db in
          match upload_loop chat existing_filenames now files
                            (open_session db) [] [] with
          | (Ok (uploaded_docs, skipped_docs), s) =>
              (Ok {| up_message :=
                       "Successfully uploaded "
                         ++ str_of_nat (List.length uploaded_docs)
                         ++ " documents";
                     uploaded := uploaded_docs;
                     skipped := skipped_docs |},
               store s)
          | (Raise e, s) => (Raise e, store s)
          end
      end
  end.

(** The body of the [try] in [query_documents] *)
Definition query_body (request : QueryRequest) (now : datetime) (db : Session)
  : Result QueryResponse * Session :=
  if String.eqb (chat_id request) "" then
    (Raise (HTTPException 400 "chat_id is required"), db)
  else
    match get_relevant_chunks (query request) (chat_id request) db 5 with
    | Raise e => (Raise e, db)
    | Ok [] =>
        (Ok {| q_query := query request;
               q_response := no_documents_response;
               q_sources := 0 |}, db)
    | Ok relevant_chunks =>
        let response :=
          generate_response rag_system (query request) relevant_chunks in
        match uuid_UUID (chat_id request) with
        | Raise e => (Raise e, db)
        | Ok chat =>
            let '(_, db1) :=
              db_add (fun id =>
                        AddMessage {| m_id := id; m_chat_id := chat;
                                      m_message := query request;
                                      m_response := response;
                                      m_timestamp := now |}) db in
            let db2 :=
              match find (fun c => N.eqb (c_id c) chat) (chats (store db1)) with
              | Some _ =>
                  {| store := store db1;
                     pending := pending db1 ++ [TouchChat chat now] |}
              | None => db1
              end in
            (Ok {| q_query := query request;
                   q_response := response;
                   q_sources := List.length relevant_chunks |},
             db_commit db2)
        end
    end.

(** [POST /query] *)
Definition query_documents (request : QueryRequest) (now : datetime) (db : DB)
  : Result QueryResponse * DB :=
  match query_body request now (open_session db) with
  | (Ok r, s) => (Ok r, store s)
  | (Raise e, s) =>
      (Raise (HTTPException 500 ("Error processing query: " ++ str e)), store s)
  end.

(** [POST /chats]; the response carries the fields of the new row *)
Definition create_chat (title : string) (now : datetime) (db : DB)
  : Result Chat * DB :=
  let '(id, db1) :=
    db_add (fun id =>
              AddChat {| c_id := id; c_title := title;
                         c_created_at := now; c_updated_at := now |})
           (open_session db) in
  (Ok {| c_id := id; c_title := title;
         c_created_at := now; c_updated_at := now |},
   store (db_commit db1)).

(** [DELETE /documents/{document_id}] *)
Definition delete_document (document_id : string) (db : DB)
  : Result string * DB :=
  match uuid_UUID document_id with
  | Raise e => (Raise e, db)
  | Ok id =>
      (Ok "Document deleted successfully",
       {| chats := chats db; chat_messages := chat_messages db;
          documents := filter (fun d => negb (N.eqb (d_id d) id)) (documents db);
          document_chunks :=
            filter (fun dc => negb (N.eqb (dc_document_id dc) id))
                   (document_chunks db);
          uuid4_next := uuid4_next db |})
  end.

(** [DELETE /chats/{chat_id}] *)
Definition delete_chat (chat_id : string) (db : DB) : Result string * DB :=
  match uuid_UUID chat_id with
  | Raise e => (Raise e, db)
  | Ok chat_uuid =>
      (Ok "Chat and all associated data deleted successfully",
       {| chats := filter (fun c => negb (N.eqb (c_id c) chat_uuid)) (chats db);
          chat_messages :=
            filter (fun m => negb (N.eqb (m_chat_id m) chat_uuid))
                   (chat_messages db);
          documents :=
            filter (fun d => negb (N.eqb (d_chat_id d) chat_uuid)) (documents db);
          document_chunks :=
            filter (fun dc => negb (N.eqb (dc_chat_id dc) chat_uuid))
                   (document_chunks db);
          uuid4_next := uuid4_next db |})
  end.

End Handlers.

(* ------------------------------------------------------------------ *)
(** ** The rest of the code: text cleaning, titles, listings *)

Module PyText.

(** [s.split()]: the maximal runs of characters that are not
    whitespace, in order; [word] is the run being read. *)
Fixpoint split_from (s : string) (word : string) : list string :=
  match s with
  | EmptyString =>
      match word with
      | EmptyString => []
      | _ => [word]
      end
  | String c s' =>
      if isspace c then
        match word with
        | EmptyString => split_from s' EmptyString
        | _ => word :: split_from s' EmptyString
        end
      else split_from s' (word ++ String c EmptyString)
  end.

Definition split (s : string) : list string := split_from s EmptyString.

(** [sep.join(words)] *)
Definition join (sep : string) (words : list string) : string :=
  String.concat sep words.

(** [s.replace(c, '')] for a pattern of one character *)
Fixpoint remove_char (c : ascii) (s : string) : string :=
  match s with
  | EmptyString => EmptyString
  | String c' s' =>
      if Ascii.eqb c' c then remove_char c s' else String c' (remove_char c s')
  end.

(** [s[:n]] *)
Definition take (n : nat) (s : string) : string := substring 0 n s.

(** The character of code 0 and the double quote *)
Definition nul : ascii := ascii_of_nat 0.
Definition dquote : string := String (ascii_of_nat 34) EmptyString.

(** [c in s] for one character *)
Fixpoint has_char (c : ascii) (s : string) : bool :=
  match s with
  | EmptyString => false
  | String c' s' => Ascii.eqb c' c || has_char c s'
  end.

End PyText.

(** [DocumentProcessor.preprocess_text] *)
Definition preprocess_text (text : string) : string :=
  let text := PyText.join " " (PyText.split text) in
  let text := PyText.remove_char PyText.nul text in
  strip text.

(** What [ChatResponse], [MessageResponse] and the dictionaries of
    [get_chat_documents] carry *)
Record DocumentInfo : Type := {
  di_id : UUID;
  di_filename : string;
  di_upload_date : datetime
}.

(** Keys for [ORDER BY column] and [ORDER BY column DESC] on a
    timestamp *)
Definition ascending (t : datetime) : Q := inject_Z (Z.of_N t).
Definition descending (t : datetime) : Q := inject_Z (- Z.of_N t).

Section MoreHandlers.
Context `{Collaborators}.

Definition title_prompt (first_message : string) : string :=
  "Generate a short, descriptive title (maximum 6 words) for a chat that starts with this message: "
    ++ PyText.dquote ++ first_message ++ PyText.dquote
    ++ nl ++ nl ++ "Title:".

(** [RAGSystem.generate_chat_title] *)
Definition generate_chat_title (self : RAGSystem) (first_message : string)
  : string :=
  match ollama_chat (model_name self) (title_prompt first_message) with
  | Ok content =>
      let title := strip content in
      if 50 <? len title then PyText.take 47 title ++ "..." else title
  | Raise _ => "New Chat"
  end.

(** [GET /chats] *)
Definition get_chats (db : DB) : list Chat :=
  order_by (fun c => descending (c_updated_at c)) (chats db).

(** [GET /chats/{chat_id}/messages] *)
Definition get_chat_messages (chat_id : string) (db : DB)
  : Result (list ChatMessage) :=
  id <- uuid_UUID chat_id ;;
  Ok (order_by (fun m => ascending (m_timestamp m))
               (filter (fun m => N.eqb (m_chat_id m) id) (chat_messages db))).

(** [GET /chats/{chat_id}/documents] *)
Definition get_chat_documents (chat_id : string) (db : DB)
  : Result (list DocumentInfo) :=
  id <- uuid_UUID chat_id ;;
  Ok (map (fun doc => {| di_id := d_id doc;
                         di_filename := d_filename doc;
                         di_upload_date := d_upload_date doc |})
          (order_by (fun d => descending (d_upload_date d))
                    (filter (fun d => N.eqb (d_chat_id d) id) (documents db)))).

End MoreHandlers.

(** The messages of a chat *)
Definition messages_of_chat (chat : UUID) (db : DB) : list ChatMessage :=
  filter (fun m => N.eqb (m_chat_id m) chat) (chat_messages db).


(** The words of [split]: never empty, never holding whitespace. *)
Definition wordlike (w : string) : Prop :=
  w <> EmptyString
  /\ forall c, In c (list_ascii_of_string w) -> isspace c = false.

(** No character of the text is whitespace other than the plain space. *)
Definition only_plain_spaces (s : string) : Prop :=
  forall c, In c (list_ascii_of_string s) -> isspace c = true -> c = " "%char.

(* ------------------------------------------------------------------ *)
(** ** Vocabulary of the properties *)

(** The database reads a chat identifier the way [uuid.UUID] does,
    whenever it accepts it. *)
Definition same_reading `{Collaborators} : Prop :=
  forall s id, pg_uuid_in s = Some id -> uuid_UUID s = Ok id.

(** The chunks indexed for a chat *)
Definition indexed_chunks (chat : UUID) (db : DB) : list DocumentChunk :=
  filter (fun dc => N.eqb (dc_chat_id dc) chat) (document_chunks db).

(** The documents of a chat *)
Definition documents_of_chat (chat : UUID) (db : DB) : list Document :=
  filter (fun d => N.eqb (d_chat_id d) chat) (documents db).

(** Every stored chunk has its document, in the same chat: what
    [upload_documents] builds and both delete handlers keep. *)
Definition chunks_have_documents (db : DB) : Prop :=
  forall dc, In dc (document_chunks db) ->
    exists d, In d (documents db)
              /\ d_id d = dc_document_id dc /\ d_chat_id d = dc_chat_id dc.

(** The Document row the loop body adds for [file] *)
Definition new_document (chat : UUID) (now : datetime) (file : UploadFile)
           (text_content : string) (id : UUID) : Document :=
  {| d_id := id; d_chat_id := chat; d_filename := uf_filename file;
     d_content := text_content; d_upload_date := now |}.

(** The DocumentChunk rows of one document: chunk [i + k] of the
    sequence gets index [i + k] and the [k]-th identifier from [id]. *)
Fixpoint chunk_rows (chat doc : UUID) (i : nat) (id : UUID)
         (embedded : list (string * Embedding)) : list DocumentChunk :=
  match embedded with
  | [] => []
  | (chunk, embedding) :: rest =>
      {| dc_id := id; dc_chat_id := chat; dc_document_id := doc;
         dc_chunk_text := chunk; dc_chunk_index := i;
         dc_embedding := embedding |}
        :: chunk_rows chat doc (S i) (N.succ id) rest
  end.

(** The rows of [rows] are the chunks of [doc], all of them: one per
    chunk of its text, in order, indexed from 0. *)
Definition all_chunks_of `{Collaborators} (doc : Document)
           (rows : list DocumentChunk) : Prop :=
  exists chunks,
    chunk_text doc_processor (d_content doc) = Ok chunks
    /\ map dc_chunk_text rows = chunks
    /\ map dc_chunk_index rows = seq 0 (List.length chunks)
    /\ Forall (fun dc => dc_document_id dc = d_id doc
                         /\ dc_chat_id dc = d_chat_id doc) rows.

Section Verdicts.
Context `{Collaborators}.

(** The embeddings of a chunk sequence, asked for in order; the first
    failure is the failure of the whole. *)
Fixpoint embed_all (chunks : list string) : Result (list (string * Embedding)) :=
  match chunks with
  | [] => Ok []
  | chunk :: rest =>
      match get_embedding chunk with
      | Raise e => Raise e
      | Ok embedding =>
          match embed_all rest with
          | Raise e => Raise e
          | Ok embedded => Ok ((chunk, embedding) :: embedded)
          end
      end
  end.

(** What becomes of a file in the upload loop, told without the
    database: it depends on the file, on the filenames the chat had when
    the request began, and on the collaborators. *)
Inductive Verdict : Type :=
| Duplicate
| Unsupported
| ExtractionFails (e : Exn)
| ChunkingFails (text_content : string) (e : Exn)
| EmbeddingFails (text_content : string) (chunks : list string) (e : Exn)
| Ingested (text_content : string) (embedded : list (string * Embedding)).

Definition verdict (existing_filenames : list string) (file : UploadFile)
  : Verdict :=
  if contains (uf_filename file) existing_filenames then Duplicate
  else match extract_text file with
       | Raise e => ExtractionFails e
       | Ok None => Unsupported
       | Ok (Some text_content) =>
           match chunk_text doc_processor text_content with
           | Raise e => ChunkingFails text_content e
           | Ok chunks =>
               match embed_all chunks with
               | Raise e => EmbeddingFails text_content chunks e
               | Ok embedded => Ingested text_content embedded
               end
           end
       end.

(** The exception, if any, that processing the file raises *)
Definition file_error (existing_filenames : list string) (file : UploadFile)
  : option Exn :=
  match verdict existing_filenames file with
  | ExtractionFails e | ChunkingFails _ e | EmbeddingFails _ _ e => Some e
  | _ => None
  end.

(** The entry of the skip list, if any, that the file earns *)
Definition skip_entry (existing_filenames : list string) (file : UploadFile)
  : option SkippedDoc :=
  match verdict existing_filenames file with
  | Duplicate => Some {| sk_filename := uf_filename file;
                         sk_reason := already_exists |}
  | Unsupported => Some {| sk_filename := uf_filename file;
                           sk_reason := unsupported_type |}
  | _ => None
  end.

(** The files of a batch that end up in the skip list, and the others *)
Fixpoint skip_list (existing_filenames : list string) (files : list UploadFile)
  : list SkippedDoc :=
  match files with
  | [] => []
  | file :: rest =>
      match skip_entry existing_filenames file with
      | Some entry => entry :: skip_list existing_filenames rest
      | None => skip_list existing_filenames rest
      end
  end.

Definition is_ingested (existing_filenames : list string) (file : UploadFile)
  : bool :=
  match verdict existing_filenames file with
  | Ingested _ _ => true
  | _ => false
  end.

End Verdicts.

(** The tables as [create_tables] leaves them *)
Definition empty_db (seed : UUID) : DB :=
  {| chats := []; chat_messages := []; documents := [];
     document_chunks := []; uuid4_next := seed |}.

(** The databases the handlers can produce from empty tables *)
Inductive reachable `{Collaborators} : DB -> Prop :=
| reach_empty (seed : UUID) : reachable (empty_db seed)
| reach_create_chat (db : DB) (title : string) (now : datetime) :
    reachable db -> reachable (snd (create_chat title now db))
| reach_upload (db : DB) (chat_id : string) (files : list UploadFile)
               (now : datetime) :
    reachable db -> reachable (snd (upload_documents chat_id files now db))
| reach_query (db : DB) (request : QueryRequest) (now : datetime) :
    reachable db -> reachable (snd (query_documents request now db))
| reach_delete_document (db : DB) (document_id : string) :
    reachable db -> reachable (snd (delete_document document_id db))
| reach_delete_chat (db : DB) (chat_id : string) :
    reachable db -> reachable (snd (delete_chat chat_id db)).

(** The chat is in the database. *)
Definition has_chat (chat : UUID) (db : DB) : Prop :=
  exists c, In c (chats db) /\ c_id c = chat.

(** The entry of the skip list for a file the chat already has *)
Definition duplicate_entry (file : UploadFile) : SkippedDoc :=
  {| sk_filename := uf_filename file; sk_reason := already_exists |}.

(** The 500 the loop raises for [file] when processing it raised [e] *)
Definition error_processing (file : UploadFile) (e : Exn) : Exn :=
  HTTPException 500 ("Error processing " ++ uf_filename file ++ ": " ++ str e).

(** The chunks stored for a document, in table order *)
Definition chunks_of_document (id : UUID) (db : DB) : list DocumentChunk :=
  filter (fun dc => N.eqb (dc_document_id dc) id) (document_chunks db).

(** Every identifier in use was drawn before: documents, and the
    documents chunks refer to, lie below the next identifier. *)
Definition ids_are_drawn (db : DB) : Prop :=
  (forall d, In d (documents db) -> (d_id d < uuid4_next db)%N)
  /\ (forall dc, In dc (document_chunks db) ->
        (dc_document_id dc < uuid4_next db)%N).

(** The chunks of every document are numbered 0, 1, 2, ... in table
    order. *)
Definition chunk_indices_contiguous (db : DB) : Prop :=
  forall id,
    map dc_chunk_index (chunks_of_document id db)
    = seq 0 (List.length (chunks_of_document id db)).

(** What every handler keeps *)
Definition well_kept (db : DB) : Prop :=
  chunks_have_documents db
  /\ ids_are_drawn db
  /\ NoDup (map d_id (documents db))
  /\ chunk_indices_contiguous db.

(* ------------------------------------------------------------------ *)
(** ** A laboratory: concrete collaborators to run the handlers on *)

Module Lab.

Definition hex_digit (c : ascii) : option N :=
  let n := nat_of_ascii c in
  if (48 <=? n) && (n <=? 57) then Some (N.of_nat (n - 48))
  else if (97 <=? n) && (n <=? 102) then Some (N.of_nat (n - 87))
  else if (65 <=? n) && (n <=? 70) then Some (N.of_nat (n - 55))
  else None.

Fixpoint hex_value (s : string) (digits : nat) (acc : N) : option (nat * N) :=
  match s with
  | EmptyString => Some (digits, acc)
  | String c s' =>
      if Ascii.eqb c "-" then hex_value s' digits acc
      else match hex_digit c with
           | Some d => hex_value s' (S digits) (16 * acc + d)%N
           | None => None
           end
  end.

(** A reading of the usual 8-4-4-4-12 form: hyphens dropped, then
    exactly 32 hexadecimal digits. *)
Definition hex_uuid (s : string) : option UUID :=
  match hex_value s 0 0%N with
  | Some (32, v) => Some v
  | _ => None
  end.

Definition parse_uuid (s : string) : Result UUID :=
  match hex_uuid s with
  | Some v => Ok v
  | None => Raise (ValueError "badly formed hexadecimal UUID string")
  end.

(** Everything works: readers return the bytes as one page, the
    splitter returns the text as one piece, the encoder maps a text
    to the one-dimensional vector of its length, and the distance is
    the Euclidean one on the first coordinate. *)
Definition healthy : Collaborators :=
  {| PdfReader_pages := fun content => Ok [content];
     docx_paragraphs := fun content => Ok [content];
     decode_utf8 := fun content => Ok content;
     split_text := fun _ text => Ok [text];
     encode := fun text => Ok [inject_Z (Z.of_nat (String.length text))];
     l2_distance := fun a b => Qabs (hd 0%Q a - hd 0%Q b);
     uuid_UUID := parse_uuid;
     pg_uuid_in := hex_uuid;
     execute_fault := None;
     ollama_chat := fun _ _ => Ok "It is in the report." |}.



(** The similarity statement cannot run. *)
Definition search_down : Collaborators :=
  {| PdfReader_pages := fun content => Ok [content];
     docx_paragraphs := fun content => Ok [content];
     decode_utf8 := fun content => Ok content;
     split_text := fun _ text => Ok [text];
     encode := fun text => Ok [inject_Z (Z.of_nat (String.length text))];
     l2_distance := fun a b => Qabs (hd 0%Q a - hd 0%Q b);
     uuid_UUID := parse_uuid;
     pg_uuid_in := hex_uuid;
     execute_fault := Some (Exception "operator does not exist: vector <-> unknown");
     ollama_chat := fun _ _ => Ok "It is in the report." |}.

(** [n] copies of the letter x *)
Definition xs (n : nat) : string := string_of_list_ascii (repeat "x"%char n).

Definition chat_a : string := "00000000-0000-0000-0000-00000000000a".
Definition chat_b : string := "00000000-0000-0000-0000-00000000000b".

Definition a_chat (id : UUID) (title : string) : Chat :=
  {| c_id := id; c_title := title; c_created_at := 0%N; c_updated_at := 0%N |}.



Definition a_chunk (id chat doc : UUID) (text : string) (i : nat) (x : Z)
  : DocumentChunk :=
  {| dc_id := id; dc_chat_id := chat; dc_document_id := doc;
     dc_chunk_text := text; dc_chunk_index := i;
     dc_embedding := [inject_Z x] |}.

(** Chat [a] holds report.pdf in three chunks, chat [b] holds notes.txt
    in one chunk, the nearest of all to a query of five letters. *)
Definition stocked : DB :=
  {| chats := [a_chat 10%N "a"; a_chat 11%N "b"];
     chat_messages := [];
     documents :=
       [ {| d_id := 20%N; d_chat_id := 10%N; d_filename := "report.pdf";
            d_content := "alpha beta gamma"; d_upload_date := 1%N |};
         {| d_id := 21%N; d_chat_id := 11%N; d_filename := "notes.txt";
            d_content := "delta"; d_upload_date := 2%N |} ];
     document_chunks :=
       [ a_chunk 30%N 10%N 20%N "alpha" 0 1;
         a_chunk 31%N 10%N 20%N "beta" 1 4;
         a_chunk 32%N 10%N 20%N "gamma" 2 9;
         a_chunk 33%N 11%N 21%N "delta" 0 5 ];
     uuid4_next := 100%N |}.

(** Files to upload *)
Definition notes : UploadFile :=
  {| uf_filename := "notes.txt"; uf_content := xs 60 |}.


Definition report : UploadFile :=
  {| uf_filename := "report.pdf"; uf_content := xs 70 |}.

Definition picture : UploadFile :=
  {| uf_filename := "picture.png"; uf_content := "PNG" |}.

(** The question asked in the examples *)
Definition ask (chat_id : string) : QueryRequest :=
  {| query := "hello"; chat_id := chat_id |}.

(** What chat [a] gets for the query hello with [top_k = 5]: beta at
    distance 1, then alpha and gamma at distance 4. *)
Definition hello_results : list RelevantChunk :=
  [ {| text := "beta"; chunk_index := 1; filename := "report.pdf";
       similarity_score := 0 |};
    {| text := "alpha"; chunk_index := 0; filename := "report.pdf";
       similarity_score := (-3 # 1) |};
    {| text := "gamma"; chunk_index := 2; filename := "report.pdf";
       similarity_score := (-3 # 1) |} ].

End Lab.

(* ------------------------------------------------------------------ *)
(** ** More of the laboratory *)

Module Bench.

(** Two words between blanks, a tab and a line break *)
Definition messy : string :=
  "  two" ++ String "009" (String "010" "words ").

(** The identifier of report.pdf in [Lab.stocked] *)
Definition report_id : string := "00000000-0000-0000-0000-000000000014".



(** The answer to hello in [Lab.stocked] *)
Definition hello_answer : QueryResponse :=
  {| q_query := "hello"; q_response := "It is in the report."; q_sources := 3 |}.


(** The response to the upload of report.pdf, picture.png and notes.txt
    into chat [a] of [Lab.stocked] *)
Definition mixed_uploaded : UploadResponse :=
  {| up_message := "Successfully uploaded 1 documents";
     uploaded := [ {| up_id := 100%N; up_filename := "notes.txt";
                      up_chunks_count := 1 |} ];
     skipped := [ {| sk_filename := "report.pdf";
                     sk_reason := "File already exists in this chat" |};
                  {| sk_filename := "picture.png";
                     sk_reason := "Unsupported file type" |} ] |}.

(** The identifier the first chat gets in tables created with seed 100 *)
Definition first_chat : string := "00000000-0000-0000-0000-000000000064".

(** Empty tables, then a chat, then notes.txt uploaded into it *)
Definition served : DB :=
  snd (@upload_documents Lab.healthy first_chat [Lab.notes] 7%N
         (snd (create_chat "a" 1%N (empty_db 100%N)))).


End Bench.

(* ------------------------------------------------------------------ *)
(** ** The laboratory meets the assumptions *)

Lemma healthy_same_reading : @same_reading Lab.healthy.
Proof.
  intros s id Hid. simpl in *. unfold Lab.parse_uuid. rewrite Hid. reflexivity.
Defined.

Lemma search_down_same_reading : @same_reading Lab.search_down.
Proof.
  intros s id Hid. simpl in *. unfold Lab.parse_uuid. rewrite Hid. reflexivity.
Defined.




Lemma stocked_has_chat_a : has_chat 10%N Lab.stocked.
Proof.
  exists (Lab.a_chat 10%N "a"). split; [left; reflexivity | reflexivity].
Defined.

(* ------------------------------------------------------------------ *)
(** ** Chunking *)

Lemma filter_long_enough_In (pieces : list string) (p : string) :
  In p (filter long_enough pieces) <-> In p pieces /\ 51 <= len (strip p).
Proof.
  rewrite filter_In. unfold long_enough.
  rewrite Nat.ltb_lt. split; intros [Hin Hlen]; split; auto; lia.
Qed.

(** C8, as the code has it: [chunk_text] keeps exactly the pieces of the
    splitter whose trimmed length is at least 51, so it discards exactly
    those of trimmed length at most 50; in particular no returned chunk
    is shorter than 50 trimmed characters. *)
Theorem chunk_text_keeps_over_50 `{Collaborators}
        (self : DocumentProcessor) (text : string) (pieces : list string) :
  split_text (text_splitter self) text = Ok pieces ->
  exists chunks,
    chunk_text self text = Ok chunks
    /\ (forall p, In p chunks <-> In p pieces /\ 51 <= len (strip p))
    /\ (forall p, In p pieces -> ~ In p chunks <-> len (strip p) <= 50)
    /\ Forall (fun c => ~ len (strip c) < 50) chunks.
Proof.
  intros Hsplit. exists (filter long_enough pieces).
  unfold chunk_text. rewrite Hsplit.
  split; [reflexivity|]. split; [apply filter_long_enough_In|]. split.
  - intros p Hin. rewrite filter_long_enough_In. split.
    + intros Hnot. destruct (le_lt_dec (len (strip p)) 50); [assumption|].
      exfalso. apply Hnot. split; [assumption | lia].
    + intros Hle [_ Hge]. lia.
  - apply Forall_forall. intros c Hc.
    apply filter_long_enough_In in Hc. lia.
Qed.

Lemma chunk_text_keeps_over_50_witness :
  @split_text Lab.healthy (text_splitter doc_processor) (Lab.xs 51)
  = Ok [Lab.xs 51]
  /\ exists chunks,
      @chunk_text Lab.healthy doc_processor (Lab.xs 51) = Ok chunks
      /\ (forall p, In p chunks <-> In p [Lab.xs 51] /\ 51 <= len (strip p))
      /\ (forall p, In p [Lab.xs 51] -> ~ In p chunks <-> len (strip p) <= 50)
      /\ Forall (fun c => ~ len (strip c) < 50) chunks.
Proof.
  split; [reflexivity|].
  apply (@chunk_text_keeps_over_50 Lab.healthy doc_processor (Lab.xs 51)
                                   [Lab.xs 51]).
  reflexivity.
Defined.

(** C8, as the specification words it, fails: a piece of exactly 50
    trimmed characters is not shorter than 50, and is discarded. *)
Lemma chunk_of_50_is_discarded :
  len (strip (Lab.xs 50)) = 50
  /\ ~ len (strip (Lab.xs 50)) < 50
  /\ @split_text Lab.healthy (text_splitter doc_processor) (Lab.xs 50)
     = Ok [Lab.xs 50]
  /\ @chunk_text Lab.healthy doc_processor (Lab.xs 50) = Ok [].
Proof.
  repeat split; try reflexivity.
  vm_compute. lia.
Qed.



(* ------------------------------------------------------------------ *)
(** ** Retrieval *)

Lemma firstn_In (A : Type) (n : nat) (l : list A) (x : A) :
  In x (firstn n l) -> In x l.
Proof.
  revert n. induction l as [|y l IH]; intros [|n]; simpl; try tauto.
  intros [->|Hin]; [left; reflexivity | right; eauto].
Qed.

Section OrderByFacts.
Variable A : Type.
Variable key : A -> Q.

Lemma insert_by_In (x y : A) (l : list A) :
  In y (insert_by key x l) <-> y = x \/ In y l.
Proof.
  induction l as [|z l IH]; simpl.
  - intuition.
  - destruct (Qle_bool (key x) (key z)); simpl; rewrite ?IH; intuition.
Qed.

Lemma order_by_In (y : A) (l : list A) :
  In y (order_by key l) <-> In y l.
Proof.
  induction l as [|x l IH]; simpl; [reflexivity|].
  rewrite insert_by_In, IH. intuition.
Qed.



Lemma insert_by_sorted (x : A) (l : list A) :
  StronglySorted (by_key key) l -> StronglySorted (by_key key) (insert_by key x l).
Proof.
  induction 1 as [|z l Hs IH Hz]; simpl.
  - constructor; constructor.
  - destruct (Qle_bool (key x) (key z)) eqn:Hle.
    + apply Qle_bool_iff in Hle.
      constructor; [constructor; assumption|].
      constructor; [assumption|].
      rewrite Forall_forall in *. intros w Hw.
      unfold by_key in *. apply Qle_trans with (key z); auto.
    + constructor; [assumption|].
      rewrite Forall_forall in *. intros w Hw.
      apply insert_by_In in Hw. destruct Hw as [->|Hw]; auto.
      unfold by_key.
      destruct (Qlt_le_dec (key x) (key z)) as [Hlt|Hge]; [|assumption].
      apply Qlt_le_weak in Hlt. apply Qle_bool_iff in Hlt. congruence.
Qed.

Lemma order_by_sorted (l : list A) : StronglySorted (by_key key) (order_by key l).
Proof.
  induction l as [|x l IH]; simpl; [constructor|].
  apply insert_by_sorted, IH.
Qed.

End OrderByFacts.

Lemma Forall2_map_map (A B C : Type) (R : B -> C -> Prop)
      (f : A -> B) (g : A -> C) (l : list A) :
  (forall x, In x l -> R (f x) (g x)) -> Forall2 R (map f l) (map g l).
Proof.
  induction l as [|x l IH]; simpl; intros HR; constructor.
  - apply HR. left. reflexivity.
  - apply IH. intros y Hy. apply HR. right. assumption.
Qed.

Section RetrievalFacts.
Context `{Collaborators}.

Lemma joined_In (db : DB) (row : DocumentChunk * Document) :
  In row (joined db) <->
  In (fst row) (document_chunks db) /\ In (snd row) (documents db)
  /\ dc_document_id (fst row) = d_id (snd row).
Proof.
  unfold joined. rewrite in_flat_map. destruct row as [dc d]. simpl. split.
  - intros (dc' & Hdc & Hrow). apply in_map_iff in Hrow.
    destruct Hrow as (d' & Heq & Hd). inversion Heq; subst.
    apply filter_In in Hd. destruct Hd as [Hd Hid].
    apply N.eqb_eq in Hid. auto.
  - intros (Hdc & Hd & Hid). exists dc. split; [assumption|].
    apply in_map. apply filter_In. split; [assumption|].
    apply N.eqb_eq. assumption.
Qed.

Lemma similarity_query_In (query_embedding : Embedding) (id : UUID)
      (limit : nat) (db : DB) (row : DocumentChunk * Document) :
  In row (similarity_query query_embedding id limit db) ->
  In (fst row) (document_chunks db) /\ dc_chat_id (fst row) = id.
Proof.
  unfold similarity_query. intros Hin.
  apply firstn_In in Hin. apply order_by_In in Hin.
  apply filter_In in Hin. destruct Hin as [Hj Hid].
  apply joined_In in Hj. apply N.eqb_eq in Hid. tauto.
Qed.

Lemma chunks_of_chat_In (id : UUID) (top_k : nat) (db : Session)
      (dc : DocumentChunk) :
  In dc (chunks_of_chat id top_k db) ->
  In dc (document_chunks (store db)) /\ dc_chat_id dc = id.
Proof.
  unfold chunks_of_chat. intros Hin.
  apply firstn_In in Hin. apply filter_In in Hin.
  destruct Hin as [Hin Hid]. apply N.eqb_eq in Hid. tauto.
Qed.

(** What the [try] block returns when it returns. *)
Lemma similarity_search_Ok (query chat_id : string) (db : Session)
      (top_k : nat) (results : list RelevantChunk) :
  similarity_search query chat_id db top_k = Ok results ->
  exists query_embedding id,
    get_embedding query = Ok query_embedding
    /\ execute_fault = None
    /\ pg_uuid_in chat_id = Some id
    /\ results = map (scored query_embedding)
                     (similarity_query query_embedding id top_k (store db)).
Proof.
  unfold similarity_search, db_execute.
  destruct (get_embedding query) as [qe|e]; simpl; [|discriminate].
  destruct execute_fault; simpl; [discriminate|].
  destruct (pg_uuid_in chat_id) as [id|]; simpl; [|discriminate].
  intros Heq. inversion Heq. exists qe, id. auto.
Qed.

(** The [try] block returns whenever the encoder and the statement do. *)
Lemma similarity_search_runs (query chat_id : string) (db : Session)
      (top_k : nat) (query_embedding : Embedding) (id : UUID) :
  get_embedding query = Ok query_embedding ->
  execute_fault = None ->
  pg_uuid_in chat_id = Some id ->
  similarity_search query chat_id db top_k
  = Ok (map (scored query_embedding)
            (similarity_query query_embedding id top_k (store db))).
Proof.
  intros He Hf Hid. unfold similarity_search, db_execute.
  rewrite He. simpl. rewrite Hf, Hid. reflexivity.
Qed.

End RetrievalFacts.

(** C3: whatever [get_relevant_chunks] returns for the chat identifier
    [A], by its similarity path or by its fallback, is built chunk by
    chunk from stored chunks whose [chat_id] is the identifier [A]
    names; no chunk of a chat [B] with another identifier is among
    them, however near its embedding. *)
Theorem retrieval_is_chat_scoped `{Collaborators}
        (query A : string) (db : Session) (top_k : nat)
        (results : list RelevantChunk) :
  same_reading ->
  get_relevant_chunks query A db top_k = Ok results ->
  exists (a : UUID) (sources : list DocumentChunk),
    uuid_UUID A = Ok a
    /\ Forall2 (fun r dc => text r = dc_chunk_text dc
                            /\ chunk_index r = dc_chunk_index dc)
               results sources
    /\ Forall (fun dc => In dc (document_chunks (store db))
                         /\ dc_chat_id dc = a) sources
    /\ (forall (B : string) (b : UUID),
           uuid_UUID B = Ok b -> b <> a ->
           Forall (fun dc => dc_chat_id dc <> b) sources).
Proof.
  intros Hsame Hget. unfold get_relevant_chunks in Hget.
  assert (Hother : forall (a : UUID) (sources : list DocumentChunk),
             Forall (fun dc => In dc (document_chunks (store db))
                               /\ dc_chat_id dc = a) sources ->
             forall (B : string) (b : UUID),
               uuid_UUID B = Ok b -> b <> a ->
               Forall (fun dc => dc_chat_id dc <> b) sources).
  { intros a sources Hsrc B b _ Hne. rewrite Forall_forall in *.
    intros dc Hdc. destruct (Hsrc dc Hdc) as [_ Ha]. congruence. }
  destruct (similarity_search query A db top_k) as [found|e] eqn:Hsearch.
  - inversion Hget; subst found.
    apply similarity_search_Ok in Hsearch.
    destruct Hsearch as (qe & a & _ & _ & Hid & ->).
    exists a, (map fst (similarity_query qe a top_k (store db))).
    assert (Hsrc : Forall (fun dc => In dc (document_chunks (store db))
                                     /\ dc_chat_id dc = a)
                          (map fst (similarity_query qe a top_k (store db)))).
    { apply Forall_forall. intros dc Hdc. apply in_map_iff in Hdc.
      destruct Hdc as (row & <- & Hrow).
      eapply similarity_query_In; eauto. }
    split; [apply Hsame; assumption|]. split.
    + apply Forall2_map_map. intros row _. split; reflexivity.
    + split; [assumption | apply Hother; assumption].
  - unfold fallback_search in Hget.
    destruct (uuid_UUID A) as [a|e'] eqn:Hid; simpl in Hget; [|discriminate].
    inversion Hget; subst results.
    exists a, (chunks_of_chat a top_k db).
    assert (Hsrc : Forall (fun dc => In dc (document_chunks (store db))
                                     /\ dc_chat_id dc = a)
                          (chunks_of_chat a top_k db)).
    { apply Forall_forall. intros dc Hdc.
      eapply chunks_of_chat_In; eauto. }
    split; [reflexivity|]. split.
    + rewrite <- (map_id (chunks_of_chat a top_k db)) at 2.
      apply Forall2_map_map. intros dc _. split; reflexivity.
    + split; [assumption | apply Hother; assumption].
Qed.



(** The edge of the fallback: it reads the chat identifier with
    [uuid.UUID], so for a text that constructor rejects the fallback
    raises in its turn. *)
Lemma fallback_needs_a_well_formed_id `{Collaborators}
      (query chat_id : string) (db : Session) (top_k : nat) (e e' : Exn) :
  similarity_search query chat_id db top_k = Raise e ->
  uuid_UUID chat_id = Raise e' ->
  get_relevant_chunks query chat_id db top_k = Raise e'.
Proof.
  intros Hsearch Hid. unfold get_relevant_chunks, fallback_search.
  rewrite Hsearch, Hid. reflexivity.
Qed.

Lemma retrieval_is_chat_scoped_witness :
  exists (a : UUID) (sources : list DocumentChunk),
    @uuid_UUID Lab.healthy Lab.chat_a = Ok a
    /\ Forall2 (fun r dc => text r = dc_chunk_text dc
                            /\ chunk_index r = dc_chunk_index dc)
               Lab.hello_results sources
    /\ Forall (fun dc => In dc (document_chunks Lab.stocked)
                         /\ dc_chat_id dc = a) sources
    /\ (forall (B : string) (b : UUID),
           @uuid_UUID Lab.healthy B = Ok b -> b <> a ->
           Forall (fun dc => dc_chat_id dc <> b) sources).
Proof.
  apply (@retrieval_is_chat_scoped Lab.healthy "hello" Lab.chat_a
           (open_session Lab.stocked) 5 Lab.hello_results
           healthy_same_reading).
  vm_compute. reflexivity.
Defined.



(* ------------------------------------------------------------------ *)
(** ** Queries *)

Section QueryFacts.
Context `{Collaborators}.





End QueryFacts.



(* ------------------------------------------------------------------ *)
(** ** Uploads *)

Lemma contains_In (x : string) (xs : list string) :
  contains x xs = true <-> In x xs.
Proof.
  unfold contains. rewrite existsb_exists. split.
  - intros (y & Hy & Heq). apply String.eqb_eq in Heq. subst. assumption.
  - intros Hin. exists x. split; [assumption | apply String.eqb_refl].
Qed.

Lemma flush_chunks (rows : list DocumentChunk) (db : DB) :
  chats (fold_left flush (map AddChunk rows) db) = chats db
  /\ chat_messages (fold_left flush (map AddChunk rows) db) = chat_messages db
  /\ documents (fold_left flush (map AddChunk rows) db) = documents db
  /\ document_chunks (fold_left flush (map AddChunk rows) db)
     = (document_chunks db ++ rows)%list
  /\ uuid4_next (fold_left flush (map AddChunk rows) db) = uuid4_next db.
Proof.
  revert db. induction rows as [|row rows IH]; intros db; cbn [map fold_left].
  - rewrite app_nil_r. tauto.
  - destruct (IH (flush db (AddChunk row))) as (Hc & Hm & Hd & Hk & Hu).
    rewrite Hc, Hm, Hd, Hk, Hu. simpl. rewrite <- app_assoc. tauto.
Qed.


Lemma chunk_rows_texts (chat doc : UUID) (embedded : list (string * Embedding)) :
  forall i id, map dc_chunk_text (chunk_rows chat doc i id embedded) = map fst embedded.
Proof.
  induction embedded as [|[chunk embedding] rest IH]; intros i id; simpl;
    [reflexivity | rewrite IH; reflexivity].
Qed.

Lemma chunk_rows_indices (chat doc : UUID) (embedded : list (string * Embedding)) :
  forall i id,
    map dc_chunk_index (chunk_rows chat doc i id embedded)
    = seq i (List.length embedded).
Proof.
  induction embedded as [|[chunk embedding] rest IH]; intros i id; simpl;
    [reflexivity | rewrite IH; reflexivity].
Qed.

Lemma chunk_rows_owner (chat doc : UUID) (embedded : list (string * Embedding)) :
  forall i id,
    Forall (fun dc => dc_document_id dc = doc /\ dc_chat_id dc = chat)
           (chunk_rows chat doc i id embedded).
Proof.
  induction embedded as [|[chunk embedding] rest IH]; intros i id; simpl;
    constructor; auto.
Qed.

Section UploadFacts.
Context `{Collaborators}.

Lemma verdict_inv (existing_filenames : list string) (file : UploadFile) :
  match verdict existing_filenames file with
  | Duplicate => contains (uf_filename file) existing_filenames = true
  | Unsupported =>
      contains (uf_filename file) existing_filenames = false
      /\ extract_text file = Ok None
  | ExtractionFails e =>
      contains (uf_filename file) existing_filenames = false
      /\ extract_text file = Raise e
  | ChunkingFails text_content e =>
      contains (uf_filename file) existing_filenames = false
      /\ extract_text file = Ok (Some text_content)
      /\ chunk_text doc_processor text_content = Raise e
  | EmbeddingFails text_content chunks e =>
      contains (uf_filename file) existing_filenames = false
      /\ extract_text file = Ok (Some text_content)
      /\ chunk_text doc_processor text_content = Ok chunks
      /\ embed_all chunks = Raise e
  | Ingested text_content embedded =>
      contains (uf_filename file) existing_filenames = false
      /\ extract_text file = Ok (Some text_content)
      /\ exists chunks,
          chunk_text doc_processor text_content = Ok chunks
          /\ embed_all chunks = Ok embedded
  end.
Proof.
  unfold verdict.
  destruct (contains (uf_filename file) existing_filenames); [reflexivity|].
  destruct (extract_text file) as [[text_content|]|e]; auto.
  destruct (chunk_text doc_processor text_content) as [chunks|e] eqn:Hchunks; auto.
  destruct (embed_all chunks) as [embedded|e] eqn:Hembed; eauto 6.
Qed.

Lemma embed_all_texts (chunks : list string) :
  forall embedded, embed_all chunks = Ok embedded -> map fst embedded = chunks.
Proof.
  induction chunks as [|chunk rest IH]; simpl; intros embedded Heq.
  - inversion Heq. reflexivity.
  - destruct (get_embedding chunk); [|discriminate].
    destruct (embed_all rest); [|discriminate].
    inversion Heq. simpl. rewrite IH; reflexivity.
Qed.

(** The embedding loop: it touches no committed table; when every
    embedding is obtained it leaves one pending row per chunk, and when
    one fails it raises what the encoder raised. *)
Lemma add_chunks_spec (chat doc : UUID) (chunks : list string) :
  forall (i : nat) (db : Session) (r : Result unit) (db' : Session),
    add_chunks chat doc i chunks db = (r, db') ->
    chats (store db') = chats (store db)
    /\ chat_messages (store db') = chat_messages (store db)
    /\ documents (store db') = documents (store db)
    /\ document_chunks (store db') = document_chunks (store db)
    /\ (uuid4_next (store db) <= uuid4_next (store db'))%N
    /\ match embed_all chunks with
       | Ok embedded =>
           r = Ok tt
           /\ pending db'
              = (pending db
                   ++ map AddChunk
                        (chunk_rows chat doc i (uuid4_next (store db)) embedded))%list
           /\ uuid4_next (store db')
              = (uuid4_next (store db) + N.of_nat (List.length embedded))%N
       | Raise e => r = Raise e
       end.
Proof.
  induction chunks as [|chunk rest IH]; intros i db r db' Hrun; simpl in *.
  - inversion Hrun; subst. rewrite app_nil_r, N.add_0_r.
    repeat split; reflexivity.
  - destruct (get_embedding chunk) as [embedding|e].
    + unfold db_add, uuid4 in Hrun. simpl in Hrun.
      apply IH in Hrun. simpl in Hrun.
      destruct Hrun as (Hc & Hm & Hd & Hk & Hu & Hrest).
      repeat (split; [assumption || lia|]).
      destruct (embed_all rest) as [embedded|e].
      * destruct Hrest as (-> & Hp & Hn). split; [reflexivity|].
        rewrite Hp, Hn. simpl. rewrite <- app_assoc. simpl.
        split; [reflexivity | lia].
      * assumption.
    + inversion Hrun; subst. repeat split; reflexivity || lia.
Qed.

(** One turn of the loop on a session with nothing pending. *)
Lemma upload_file_spec (chat : UUID) (existing_filenames : list string)
      (now : datetime) (file : UploadFile) (db : Session) :
  pending db = [] ->
  exists db',
    chats (store db') = chats (store db)
    /\ chat_messages (store db') = chat_messages (store db)
    /\ (uuid4_next (store db) <= uuid4_next (store db'))%N
    /\ match verdict existing_filenames file with
       | Duplicate =>
           db' = db
           /\ upload_file chat existing_filenames now file db
              = (Ok (Skipped {| sk_filename := uf_filename file;
                                sk_reason := already_exists |}), db')
       | Unsupported =>
           db' = db
           /\ upload_file chat existing_filenames now file db
              = (Ok (Skipped {| sk_filename := uf_filename file;
                                sk_reason := unsupported_type |}), db')
       | ExtractionFails e =>
           db' = db
           /\ upload_file chat existing_filenames now file db = (Raise e, db')
       | ChunkingFails text_content e
       | EmbeddingFails text_content _ e =>
           upload_file chat existing_filenames now file db = (Raise e, db')
           /\ documents (store db')
              = (documents (store db)
                   ++ [new_document chat now file text_content
                                    (uuid4_next (store db))])%list
           /\ document_chunks (store db') = document_chunks (store db)
           /\ (uuid4_next (store db) < uuid4_next (store db'))%N
       | Ingested text_content embedded =>
           upload_file chat existing_filenames now file db
           = (Ok (Uploaded {| up_id := uuid4_next (store db);
                              up_filename := uf_filename file;
                              up_chunks_count := List.length embedded |}), db')
           /\ pending db' = []
           /\ documents (store db')
              = (documents (store db)
                   ++ [new_document chat now file text_content
                                    (uuid4_next (store db))])%list
           /\ document_chunks (store db')
              = (document_chunks (store db)
                   ++ chunk_rows chat (uuid4_next (store db)) 0
                        (N.succ (uuid4_next (store db))) embedded)%list
           /\ (uuid4_next (store db) < uuid4_next (store db'))%N
       end.
Proof.
  intros Hpending. unfold verdict, upload_file.
  destruct (contains (uf_filename file) existing_filenames).
  { exists db. repeat split; reflexivity || lia. }
  destruct (extract_text file) as [[text_content|]|e].
  2:{ exists db. repeat split; reflexivity || lia. }
  2:{ exists db. repeat split; reflexivity || lia. }
  unfold db_add, uuid4, db_commit. simpl. rewrite Hpending. simpl.
  destruct (chunk_text doc_processor text_content) as [chunks|e].
  2:{ eexists. split; [|split; [|split; [|split; [reflexivity|]]]];
        simpl; try reflexivity; try lia. repeat split; reflexivity || lia. }
  match goal with
  | |- context [add_chunks ?c ?d ?i ?l ?s] =>
      destruct (add_chunks c d i l s) as [r db3] eqn:Hrun
  end.
  pose proof (add_chunks_spec _ _ _ _ _ Hrun) as Hspec. simpl in Hspec.
  destruct Hspec as (Hc & Hm & Hd & Hk & Hu & Hrest).
  destruct (embed_all chunks) as [embedded|e] eqn:Hembed.
  - destruct Hrest as (-> & Hp & Hn).
    pose proof (flush_chunks
                  (chunk_rows chat (uuid4_next (store db)) 0
                              (N.succ (uuid4_next (store db))) embedded)
                  (store db3)) as Hflush.
    rewrite <- Hp in Hflush.
    destruct Hflush as (Fc & Fm & Fd & Fk & Fu).
    assert (Hlen : List.length chunks = List.length embedded).
    { rewrite <- (embed_all_texts _ Hembed) at 1. apply length_map. }
    exists (db_commit db3). unfold db_commit. simpl.
    rewrite Fc, Fm, Fd, Fk, Fu, Hc, Hm, Hd, Hk, Hlen.
    repeat split; reflexivity || lia.
  - subst r. exists db3. rewrite Hc, Hm, Hd, Hk.
    repeat split; reflexivity || lia.
Qed.

(** The whole loop, from a session with nothing pending: what it adds
    to the tables, and how it ends. *)
Lemma upload_loop_spec (chat : UUID) (existing : list string) (now : datetime) :
  forall (files : list UploadFile) (db : Session)
         (uploaded_docs : list UploadedDoc) (skipped_docs : list SkippedDoc)
         (r : Result (list UploadedDoc * list SkippedDoc)) (db' : Session),
    pending db = [] ->
    upload_loop chat existing now files db uploaded_docs skipped_docs = (r, db') ->
    exists ingested : list (Document * list DocumentChunk),
      chats (store db') = chats (store db)
      /\ chat_messages (store db') = chat_messages (store db)
      /\ documents (store db') = (documents (store db) ++ map fst ingested)%list
      /\ document_chunks (store db')
         = (document_chunks (store db) ++ List.concat (map snd ingested))%list
      /\ (uuid4_next (store db) <= uuid4_next (store db'))%N
      /\ Forall (fun p =>
                   d_chat_id (fst p) = chat
                   /\ contains (d_filename (fst p)) existing = false
                   /\ (uuid4_next (store db) <= d_id (fst p)
                       < uuid4_next (store db'))%N
                   /\ (snd p = [] \/ all_chunks_of (fst p) (snd p))) ingested
      /\ StronglySorted (fun p q => (d_id (fst p) < d_id (fst q))%N) ingested
      /\ match r with
         | Ok (uploaded_docs', skipped_docs') =>
             (forall file, In file files -> file_error existing file = None)
             /\ skipped_docs' = (skipped_docs ++ skip_list existing files)%list
             /\ map up_filename uploaded_docs'
                = (map up_filename uploaded_docs
                     ++ map uf_filename (filter (is_ingested existing) files))%list
             /\ map (fun p => d_filename (fst p)) ingested
                = map uf_filename (filter (is_ingested existing) files)
             /\ Forall (fun p => all_chunks_of (fst p) (snd p)) ingested
             /\ pending db' = []
         | Raise e500 =>
             exists pre bad post e,
               files = (pre ++ bad :: post)%list
               /\ (forall file, In file pre -> file_error existing file = None)
               /\ file_error existing bad = Some e
               /\ e500 = error_processing bad e
         end.
Proof.
  induction files as [|file rest IH];
    intros db uploaded_docs skipped_docs r db' Hpending Hloop.
  { simpl in Hloop. inversion Hloop; subst. exists []. simpl.
    rewrite !app_nil_r.
    repeat split; try reflexivity; try lia; try constructor.
    assumption. }
  cbn [upload_loop] in Hloop.
  destruct (@upload_file_spec chat existing now file db Hpending)
    as (db1 & Hc1 & Hm1 & Hu1 & Hstep).
  pose proof (verdict_inv existing file) as Hinv.
  assert (Herr : file_error existing file
                 = match verdict existing file with
                   | ExtractionFails e | ChunkingFails _ e
                   | EmbeddingFails _ _ e => Some e
                   | _ => None
                   end) by reflexivity.
  assert (Hskip : skip_list existing (file :: rest)
                  = match skip_entry existing file with
                    | Some entry => entry :: skip_list existing rest
                    | None => skip_list existing rest
                    end) by reflexivity.
  assert (Hfilter : filter (is_ingested existing) (file :: rest)
                    = if is_ingested existing file
                      then file :: filter (is_ingested existing) rest
                      else filter (is_ingested existing) rest) by reflexivity.
  unfold skip_entry in Hskip. unfold is_ingested at 2 in Hfilter.
  destruct (verdict existing file)
    as [| |e|text_content e|text_content chunks e|text_content embedded].
  - (* duplicate *)
    destruct Hstep as (-> & Hrun). rewrite Hrun in Hloop.
    apply IH in Hloop; [|assumption].
    destruct Hloop as (ingested & Hc & Hm & Hd & Hk & Hu & Hi & Hs & Hr).
    exists ingested. repeat (split; [assumption|]).
    destruct r as [[uploaded_docs' skipped_docs']|e500].
    + destruct Hr as (Hcalm & Hsk & Hup & Hnames & Hall & Hp).
      rewrite Hskip, Hfilter. rewrite <- app_assoc in Hsk.
      repeat (split; [assumption|]); try assumption.
      split; [|auto].
      intros f [<-|Hf]; auto.
    + destruct Hr as (pre & bad & post & e & -> & Hcalm & Hbad & ->).
      exists (file :: pre), bad, post, e.
      repeat split; auto. intros f [<-|Hf]; auto.
  - (* unsupported *)
    destruct Hstep as (-> & Hrun). rewrite Hrun in Hloop.
    apply IH in Hloop; [|assumption].
    destruct Hloop as (ingested & Hc & Hm & Hd & Hk & Hu & Hi & Hs & Hr).
    exists ingested. repeat (split; [assumption|]).
    destruct r as [[uploaded_docs' skipped_docs']|e500].
    + destruct Hr as (Hcalm & Hsk & Hup & Hnames & Hall & Hp).
      rewrite Hskip, Hfilter. rewrite <- app_assoc in Hsk.
      repeat (split; [assumption|]); try assumption.
      split; [|auto].
      intros f [<-|Hf]; auto.
    + destruct Hr as (pre & bad & post & e & -> & Hcalm & Hbad & ->).
      exists (file :: pre), bad, post, e.
      repeat split; auto. intros f [<-|Hf]; auto.
  - (* extraction fails *)
    destruct Hstep as (-> & Hrun). rewrite Hrun in Hloop.
    inversion Hloop; subst. exists []. simpl. rewrite !app_nil_r.
    repeat split; try reflexivity; try lia; try constructor.
    exists [], file, rest, e.
      repeat split; auto; try (intros f Hf; destruct Hf).
  - (* chunking fails *)
    destruct Hstep as (Hrun & Hd1 & Hk1 & Hlt). rewrite Hrun in Hloop.
    inversion Hloop; subst.
    exists [(new_document chat now file text_content (uuid4_next (store db)), [])].
    simpl. rewrite app_nil_r.
    repeat (split; [assumption|]).
    split; [|split].
    + constructor; [|constructor]. simpl.
      repeat split; try tauto; try lia.
    + constructor; constructor.
    + exists [], file, rest, e.
      repeat split; auto; try (intros f Hf; destruct Hf).
  - (* an embedding fails *)
    destruct Hstep as (Hrun & Hd1 & Hk1 & Hlt). rewrite Hrun in Hloop.
    inversion Hloop; subst.
    exists [(new_document chat now file text_content (uuid4_next (store db)), [])].
    simpl. rewrite app_nil_r.
    repeat (split; [assumption|]).
    split; [|split].
    + constructor; [|constructor]. simpl.
      repeat split; try tauto; try lia.
    + constructor; constructor.
    + exists [], file, rest, e.
      repeat split; auto; try (intros f Hf; destruct Hf).
  - (* ingested *)
    destruct Hstep as (Hrun & Hp1 & Hd1 & Hk1 & Hlt). rewrite Hrun in Hloop.
    apply IH in Hloop; [|assumption].
    destruct Hloop as (ingested & Hc & Hm & Hd & Hk & Hu & Hi & Hs & Hr).
    destruct Hinv as (Hnew & Hext & chunks & Hchunks & Hembed).
    set (doc := new_document chat now file text_content (uuid4_next (store db))) in *.
    set (rows := chunk_rows chat (uuid4_next (store db)) 0
                            (N.succ (uuid4_next (store db))) embedded) in *.
    assert (Hrows : all_chunks_of doc rows).
    { exists chunks. split; [exact Hchunks|]. unfold rows.
      rewrite chunk_rows_texts, chunk_rows_indices.
      rewrite (embed_all_texts _ Hembed).
      split; [reflexivity|]. split.
      - rewrite <- (embed_all_texts _ Hembed) at 1. rewrite length_map. reflexivity.
      - apply chunk_rows_owner. }
    exists ((doc, rows) :: ingested). simpl.
    rewrite Hc, Hm, Hd, Hk, Hc1, Hm1, Hd1, Hk1, <- !app_assoc. simpl.
    repeat (split; [reflexivity|]).
    split; [lia|]. split; [|split].
    + constructor.
      * simpl. repeat split; try tauto; try lia.
      * eapply Forall_impl; [|exact Hi]. simpl.
        intros p (Hp & Hq & Hrange & Hchunk). repeat split; try tauto; lia.
    + constructor; [assumption|].
      eapply Forall_impl; [|exact Hi]. simpl.
      intros p (_ & _ & Hrange & _). lia.
    + destruct r as [[uploaded_docs' skipped_docs']|e500].
      * destruct Hr as (Hcalm & Hsk & Hup & Hnames & Hall & Hp).
        cbn [skip_list filter] in Hskip, Hfilter.
        rewrite Hskip, Hfilter. rewrite map_app in Hup. simpl in Hup.
        rewrite <- app_assoc in Hup. simpl. rewrite Hnames.
        split; [intros f [<-|Hf]; auto|].
        split; [assumption|]. split; [assumption|]. split; [reflexivity|].
        split; [constructor; assumption | assumption].
      * destruct Hr as (pre & bad & post & e & -> & Hcalm & Hbad & ->).
        exists (file :: pre), bad, post, e.
        repeat split; auto. intros f [<-|Hf]; auto.
Qed.

End UploadFacts.

Lemma find_chat (chat : UUID) (db : DB) :
  has_chat chat db ->
  exists c, find (fun c => N.eqb (c_id c) chat) (chats db) = Some c.
Proof.
  intros (c & Hin & Hid).
  destruct (find (fun c => N.eqb (c_id c) chat) (chats db)) as [c'|] eqn:Hfind.
  - eauto.
  - exfalso. apply (find_none _ _ Hfind) in Hin.
    rewrite Hid, N.eqb_refl in Hin. discriminate.
Qed.

Lemma sorted_ids_NoDup (A : Type) (id : A -> N) (l : list A) :
  StronglySorted (fun p q => (id p < id q)%N) l -> NoDup (map id l).
Proof.
  induction 1 as [|x l Hs IH Hx]; simpl; constructor; [|assumption].
  intros Hin. apply in_map_iff in Hin. destruct Hin as (y & Heq & Hy).
  rewrite Forall_forall in Hx. specialize (Hx y Hy). lia.
Qed.

Section BatchFacts.
Context `{Collaborators}.

Lemma skip_list_In (existing : list string) (files : list UploadFile)
      (file : UploadFile) (entry : SkippedDoc) :
  In file files -> skip_entry existing file = Some entry ->
  In entry (skip_list existing files).
Proof.
  induction files as [|f rest IH]; simpl; [tauto|].
  intros [->|Hin] Hentry.
  - rewrite Hentry. left. reflexivity.
  - destruct (skip_entry existing f); [right|]; auto.
Qed.


Lemma duplicate_verdict (existing : list string) (file : UploadFile) :
  In (uf_filename file) existing -> verdict existing file = Duplicate.
Proof.
  intros Hin. apply contains_In in Hin. unfold verdict. rewrite Hin. reflexivity.
Qed.

(** A batch of files the chat already has: all skipped, nothing done. *)
Lemma upload_loop_duplicates (chat : UUID) (existing : list string)
      (now : datetime) (files : list UploadFile) :
  (forall file, In file files -> In (uf_filename file) existing) ->
  forall db uploaded_docs skipped_docs,
    upload_loop chat existing now files db uploaded_docs skipped_docs
    = (Ok (uploaded_docs, (skipped_docs ++ map duplicate_entry files)%list), db).
Proof.
  induction files as [|file rest IH]; intros Hall db uploaded_docs skipped_docs.
  - simpl. rewrite app_nil_r. reflexivity.
  - cbn [upload_loop]. unfold upload_file.
    assert (Hdup : contains (uf_filename file) existing = true).
    { apply contains_In. apply Hall. left. reflexivity. }
    rewrite Hdup. rewrite IH by (intros f Hf; apply Hall; right; assumption).
    rewrite <- app_assoc. reflexivity.
Qed.


End BatchFacts.



(** C6: a file whose filename the chat already has (the same string,
    case and all) adds no Document record and changes none, whatever
    else is in the batch; when the request returns its response the file
    is in [skipped] with the reason "File already exists in this chat"
    and not in [uploaded]; and a request made only of such files returns
    its response and leaves the database, so the chat's document count,
    as it was. *)
Theorem duplicate_upload_is_skipped `{Collaborators}
        (chat_id : string) (chat : UUID) (files : list UploadFile)
        (file : UploadFile) (now : datetime) (db : DB) :
  uuid_UUID chat_id = Ok chat ->
  has_chat chat db ->
  In file files ->
  In (uf_filename file) (filenames_of_chat chat db) ->
  (exists (r : Result UploadResponse) (db' : DB) (added : list Document),
      upload_documents chat_id files now db = (r, db')
      /\ documents db' = (documents db ++ added)%list
      /\ Forall (fun d => d_filename d <> uf_filename file) added
      /\ (forall response, r = Ok response ->
            In {| sk_filename := uf_filename file;
                  sk_reason := "File already exists in this chat" |}
               (skipped response)
            /\ ~ In (uf_filename file) (map up_filename (uploaded response))))
  /\ ((forall f, In f files -> In (uf_filename f) (filenames_of_chat chat db)) ->
      upload_documents chat_id files now db
      = (Ok {| up_message := "Successfully uploaded 0 documents";
               uploaded := [];
               skipped := map duplicate_entry files |}, db)
      /\ List.length (documents_of_chat chat
                        (snd (upload_documents chat_id files now db)))
         = List.length (documents_of_chat chat db)).
Proof.
  intros Hid Hchat Hfile Hdup. destruct (find_chat Hchat) as (c & Hfind).
  assert (Htwice : contains (uf_filename file) (filenames_of_chat chat db) = true).
  { apply contains_In. assumption. }
  split.
  - unfold upload_documents. rewrite Hid, Hfind.
    destruct (upload_loop chat (filenames_of_chat chat db) now files
                          (open_session db) [] []) as [r s] eqn:Hloop.
    apply upload_loop_spec in Hloop; [|reflexivity].
    destruct Hloop as (ingested & _ & _ & Hd & _ & _ & Hi & _ & Hr).
    assert (Hadded : Forall (fun d => d_filename d <> uf_filename file)
                            (map fst ingested)).
    { apply Forall_forall. intros d Hin. apply in_map_iff in Hin.
      destruct Hin as (p & <- & Hp). rewrite Forall_forall in Hi.
      destruct (Hi p Hp) as (_ & Hnew & _). congruence. }
    destruct r as [[uploaded_docs skipped_docs]|e].
    + eexists _, (store s), (map fst ingested).
      split; [reflexivity|]. repeat (split; [assumption|]).
      intros response Hresponse. inversion Hresponse; subst response. simpl.
      destruct Hr as (_ & -> & Hup & _). simpl in *. split.
      * apply skip_list_In with (file := file); [assumption|].
        unfold skip_entry. rewrite (duplicate_verdict _ _ Hdup). reflexivity.
      * rewrite Hup. intros Hin. apply in_map_iff in Hin.
        destruct Hin as (f & Hname & Hf). apply filter_In in Hf.
        destruct Hf as [_ Hf]. unfold is_ingested in Hf.
        rewrite duplicate_verdict in Hf; [discriminate|].
        rewrite Hname. assumption.
    + exists (Raise e), (store s), (map fst ingested).
      split; [reflexivity|]. repeat (split; [assumption|]).
      intros response Habs. discriminate.
  - intros Hall.
    assert (Hrun : upload_documents chat_id files now db
                   = (Ok {| up_message := "Successfully uploaded 0 documents";
                            uploaded := [];
                            skipped := map duplicate_entry files |}, db)).
    { unfold upload_documents. rewrite Hid, Hfind.
      rewrite upload_loop_duplicates by assumption. reflexivity. }
    rewrite Hrun. split; reflexivity.
Qed.






Lemma duplicate_upload_is_skipped_witness :
  (exists (r : Result UploadResponse) (db' : DB) (added : list Document),
      @upload_documents Lab.healthy Lab.chat_a [Lab.report; Lab.notes] 7%N
         Lab.stocked = (r, db')
      /\ documents db' = (documents Lab.stocked ++ added)%list
      /\ Forall (fun d => d_filename d <> "report.pdf") added
      /\ (forall response, r = Ok response ->
            In {| sk_filename := "report.pdf";
                  sk_reason := "File already exists in this chat" |}
               (skipped response)
            /\ ~ In "report.pdf" (map up_filename (uploaded response))))
  /\ (@upload_documents Lab.healthy Lab.chat_a [Lab.report] 7%N Lab.stocked
      = (Ok {| up_message := "Successfully uploaded 0 documents";
               uploaded := [];
               skipped := map duplicate_entry [Lab.report] |}, Lab.stocked)
      /\ List.length (documents_of_chat 10%N
                        (snd (@upload_documents Lab.healthy Lab.chat_a
                                [Lab.report] 7%N Lab.stocked)))
         = List.length (documents_of_chat 10%N Lab.stocked)).
Proof.
  split.
  - apply (proj1 (@duplicate_upload_is_skipped Lab.healthy Lab.chat_a 10%N
                    [Lab.report; Lab.notes] Lab.report 7%N Lab.stocked
                    eq_refl stocked_has_chat_a
                    (or_introl eq_refl) (or_introl eq_refl))).
  - apply (proj2 (@duplicate_upload_is_skipped Lab.healthy Lab.chat_a 10%N
                    [Lab.report] Lab.report 7%N Lab.stocked
                    eq_refl stocked_has_chat_a
                    (or_introl eq_refl) (or_introl eq_refl))).
    intros f [<-|[]]. left. reflexivity.
Defined.


(* ------------------------------------------------------------------ *)
(** ** Every chunk keeps its document *)

Section Integrity.
Context `{Collaborators}.

Lemma query_documents_keeps_documents (request : QueryRequest) (now : datetime)
      (db : DB) :
  documents (snd (query_documents request now db)) = documents db
  /\ document_chunks (snd (query_documents request now db)) = document_chunks db.
Proof.
  unfold query_documents, query_body.
  destruct (String.eqb (chat_id request) ""); [split; reflexivity|].
  destruct (get_relevant_chunks (query request) (chat_id request)
                                (open_session db) 5) as [[|r rs]|e];
    try (split; reflexivity).
  destruct (uuid_UUID (chat_id request)) as [chat|e]; [|split; reflexivity].
  unfold db_add, uuid4, open_session. simpl.
  destruct (find (fun c => N.eqb (c_id c) chat) (chats db));
    simpl; split; reflexivity.
Qed.

Lemma upload_documents_keeps_integrity (chat_id : string)
      (files : list UploadFile) (now : datetime) (db : DB) :
  chunks_have_documents db ->
  chunks_have_documents (snd (upload_documents chat_id files now db)).
Proof.
  intros Hwf. unfold upload_documents.
  destruct (uuid_UUID chat_id) as [chat|e]; [|assumption].
  destruct (find (fun c => N.eqb (c_id c) chat) (chats db)); [|assumption].
  destruct (upload_loop chat (filenames_of_chat chat db) now files
                        (open_session db) [] []) as [r s] eqn:Hloop.
  apply upload_loop_spec in Hloop; [|reflexivity].
  destruct Hloop as (ingested & _ & _ & Hd & Hk & _ & Hi & _).
  assert (Hstore : chunks_have_documents (store s)).
  { intros dc Hdc. rewrite Hk in Hdc. rewrite Hd.
    apply in_app_or in Hdc. destruct Hdc as [Hold|Hnew].
    - destruct (Hwf dc Hold) as (d & Hin & Hids).
      exists d. split; [apply in_or_app; left; assumption | assumption].
    - apply in_concat in Hnew. destruct Hnew as (rows & Hrows & Hdc).
      apply in_map_iff in Hrows. destruct Hrows as (p & <- & Hp).
      rewrite Forall_forall in Hi.
      destruct (Hi p Hp) as (_ & _ & _ & [Hnone|(chunks & _ & _ & _ & Hown)]).
      + rewrite Hnone in Hdc. destruct Hdc.
      + rewrite Forall_forall in Hown. destruct (Hown dc Hdc) as [Hdoc Hchat].
        exists (fst p). split; [|auto].
        apply in_or_app. right. apply in_map. assumption. }
  destruct r as [[uploaded_docs skipped_docs]|e]; assumption.
Qed.

Lemma delete_document_keeps_integrity (document_id : string) (db : DB) :
  chunks_have_documents db ->
  chunks_have_documents (snd (delete_document document_id db)).
Proof.
  intros Hwf. unfold delete_document.
  destruct (uuid_UUID document_id) as [id|e]; [|assumption].
  intros dc Hdc. simpl in *. apply filter_In in Hdc. destruct Hdc as [Hdc Hkeep].
  destruct (Hwf dc Hdc) as (d & Hin & Hid & Hchat).
  exists d. split; [|auto]. apply filter_In. split; [assumption|].
  rewrite Hid. assumption.
Qed.

Lemma delete_chat_keeps_integrity (chat_id : string) (db : DB) :
  chunks_have_documents db ->
  chunks_have_documents (snd (delete_chat chat_id db)).
Proof.
  intros Hwf. unfold delete_chat.
  destruct (uuid_UUID chat_id) as [id|e]; [|assumption].
  intros dc Hdc. simpl in *. apply filter_In in Hdc. destruct Hdc as [Hdc Hkeep].
  destruct (Hwf dc Hdc) as (d & Hin & Hid & Hchat).
  exists d. split; [|auto]. apply filter_In. split; [assumption|].
  rewrite Hchat. assumption.
Qed.

(** Every database the handlers can produce keeps, for each chunk, its
    document in the same chat. *)
Lemma reachable_chunks_have_documents (db : DB) :
  reachable db -> chunks_have_documents db.
Proof.
  induction 1 as [seed|db title now _ IH|db chat_id files now _ IH
                  |db request now _ IH|db document_id _ IH|db chat_id _ IH].
  - intros dc [].
  - exact IH.
  - apply upload_documents_keeps_integrity. assumption.
  - destruct (query_documents_keeps_documents request now db) as [Hd Hk].
    intros dc Hdc. rewrite Hk in Hdc. rewrite Hd. apply IH. assumption.
  - apply delete_document_keeps_integrity. assumption.
  - apply delete_chat_keeps_integrity. assumption.
Qed.

End Integrity.

(* ------------------------------------------------------------------ *)
(** ** Cleaned text and titles *)

Lemma length_app_string (a b : string) :
  String.length (a ++ b) = String.length a + String.length b.
Proof.
  induction a as [|c a IH]; simpl; [reflexivity | rewrite IH; reflexivity].
Qed.

Lemma chars_app (a b : string) :
  list_ascii_of_string (a ++ b)
  = (list_ascii_of_string a ++ list_ascii_of_string b)%list.
Proof.
  induction a as [|c a IH]; simpl; [reflexivity | rewrite IH; reflexivity].
Qed.

Lemma length_take (n : nat) (s : string) :
  String.length (PyText.take n s) = Nat.min n (String.length s).
Proof.
  unfold PyText.take. revert n.
  induction s as [|c s IH]; intros [|n]; simpl; try reflexivity.
  rewrite IH. reflexivity.
Qed.

Lemma lstrip_idempotent (s : string) : lstrip (lstrip s) = lstrip s.
Proof.
  induction s as [|c s IH]; simpl; [reflexivity|].
  destruct (isspace c) eqn:Hc; [assumption|].
  simpl. rewrite Hc. reflexivity.
Qed.

Lemma rstrip_idempotent (s : string) : rstrip (rstrip s) = rstrip s.
Proof.
  induction s as [|c s IH]; simpl; [reflexivity|].
  destruct (rstrip s) as [|d r] eqn:Hr.
  - destruct (isspace c) eqn:Hc; simpl; [reflexivity|].
    rewrite Hc. reflexivity.
  - cbn [rstrip]. cbn [rstrip] in IH. rewrite IH. reflexivity.
Qed.

Lemma rstrip_lstrip (s : string) : rstrip (lstrip s) = lstrip (rstrip s).
Proof.
  induction s as [|c s IH]; [reflexivity|].
  cbn [lstrip rstrip].
  destruct (isspace c) eqn:Hc.
  - rewrite IH. destruct (rstrip s) as [|d r]; cbn [lstrip]; rewrite ?Hc; reflexivity.
  - cbn [rstrip]. destruct (rstrip s) as [|d r]; cbn [lstrip]; rewrite Hc; reflexivity.
Qed.

(** Stripping twice is stripping once. *)
Lemma strip_idempotent (s : string) : strip (strip s) = strip s.
Proof.
  unfold strip. rewrite rstrip_lstrip, rstrip_idempotent, lstrip_idempotent.
  reflexivity.
Qed.

Lemma lstrip_chars (s : string) (c : ascii) :
  In c (list_ascii_of_string (lstrip s)) -> In c (list_ascii_of_string s).
Proof.
  induction s as [|d s IH]; simpl; [tauto|].
  destruct (isspace d); simpl; tauto.
Qed.

Lemma rstrip_chars (s : string) (c : ascii) :
  In c (list_ascii_of_string (rstrip s)) -> In c (list_ascii_of_string s).
Proof.
  induction s as [|d s IH]; simpl; [tauto|].
  destruct (rstrip s) as [|e r]; [destruct (isspace d)|]; simpl in *; tauto.
Qed.

Lemma strip_chars (s : string) (c : ascii) :
  In c (list_ascii_of_string (strip s)) -> In c (list_ascii_of_string s).
Proof.
  unfold strip. intros Hin. apply rstrip_chars, lstrip_chars, Hin.
Qed.

Lemma remove_char_chars (x : ascii) (s : string) (c : ascii) :
  In c (list_ascii_of_string (PyText.remove_char x s)) <->
  In c (list_ascii_of_string s) /\ c <> x.
Proof.
  induction s as [|d s IH]; simpl; [tauto|].
  destruct (Ascii.eqb d x) eqn:Hd.
  - apply Ascii.eqb_eq in Hd. subst d. rewrite IH. intuition congruence.
  - apply Ascii.eqb_neq in Hd. simpl. rewrite IH. intuition congruence.
Qed.

Lemma has_char_In (c : ascii) (s : string) :
  PyText.has_char c s = true <-> In c (list_ascii_of_string s).
Proof.
  induction s as [|d s IH]; simpl; [intuition discriminate|].
  rewrite orb_true_iff, IH, Ascii.eqb_eq. tauto.
Qed.

Lemma split_from_wordlike (s : string) :
  forall word,
    (forall c, In c (list_ascii_of_string word) -> isspace c = false) ->
    Forall wordlike (PyText.split_from s word).
Proof.
  induction s as [|d s IH]; intros word Hword; simpl.
  - destruct word; constructor; [|constructor].
    split; [discriminate | assumption].
  - destruct (isspace d) eqn:Hd.
    + destruct word.
      * apply IH. intros c [].
      * constructor; [split; [discriminate | assumption]|].
        apply IH. intros c [].
    + apply IH. intros c Hc. rewrite chars_app in Hc.
      apply in_app_or in Hc. destruct Hc as [Hc|[<-|[]]]; auto.
Qed.

Lemma join_chars (words : list string) (c : ascii) :
  In c (list_ascii_of_string (PyText.join " " words)) ->
  c = " "%char \/ exists w, In w words /\ In c (list_ascii_of_string w).
Proof.
  unfold PyText.join.
  induction words as [|w words IH]; simpl; [tauto|].
  destruct words as [|w' words].
  - intros Hc. right. exists w. auto.
  - rewrite chars_app. intros Hc.
    apply in_app_or in Hc. destruct Hc as [Hc|Hc]; [right; exists w; auto|].
    cbn [list_ascii_of_string] in Hc.
    destruct Hc as [<-|Hc]; [left; reflexivity|].
    destruct (IH Hc) as [->|(w0 & Hw0 & Hc0)]; [left; reflexivity|].
    right. exists w0. split; [right; assumption | assumption].
Qed.

(** X2: what [preprocess_text] returns holds no NUL character, neither
    starts nor ends with whitespace (stripping it again changes
    nothing), and holds no whitespace other than the plain space: tabs,
    line breaks and the like are gone. *)
Theorem preprocess_text_is_clean (text : string) :
  PyText.has_char PyText.nul (preprocess_text text) = false
  /\ strip (preprocess_text text) = preprocess_text text
  /\ only_plain_spaces (preprocess_text text).
Proof.
  unfold preprocess_text. split; [|split].
  - destruct (PyText.has_char PyText.nul _) eqn:Hnul; [|reflexivity].
    apply has_char_In in Hnul. apply strip_chars in Hnul.
    apply remove_char_chars in Hnul. destruct Hnul as [_ Hne]. congruence.
  - apply strip_idempotent.
  - intros c Hc Hspace. apply strip_chars in Hc.
    apply remove_char_chars in Hc. destruct Hc as [Hc _].
    apply join_chars in Hc. destruct Hc as [->|(w & Hw & Hc)]; [reflexivity|].
    pose proof (@split_from_wordlike text EmptyString) as Hwords.
    rewrite Forall_forall in Hwords.
    destruct (Hwords (fun c H => match H with end) w Hw) as [_ Hns].
    rewrite (Hns c Hc) in Hspace. discriminate.
Qed.

(** X1: a generated chat title is never longer than 50 characters,
    whatever the model answers and also when the model fails: it is
    "New Chat" on failure, the stripped answer when that has at most 50
    characters, and otherwise its first 47 characters followed by three
    dots, 50 characters in all. *)
Theorem chat_title_is_short `{Collaborators}
        (self : RAGSystem) (first_message : string) :
  len (generate_chat_title self first_message) <= 50
  /\ match ollama_chat (model_name self) (title_prompt first_message) with
     | Raise _ => generate_chat_title self first_message = "New Chat"
     | Ok content =>
         (len (strip content) <= 50
          /\ generate_chat_title self first_message = strip content)
         \/ (50 < len (strip content)
             /\ generate_chat_title self first_message
                = PyText.take 47 (strip content) ++ "..."
             /\ len (generate_chat_title self first_message) = 50)
     end.
Proof.
  unfold generate_chat_title, len.
  assert (Hcut : forall title, 50 < String.length title ->
                   String.length (PyText.take 47 title ++ "...") = 50).
  { intros title Hlong. rewrite length_app_string, length_take.
    change (String.length "...") with 3. lia. }
  destruct (ollama_chat (model_name self) (title_prompt first_message))
    as [content|e]; [|split; [simpl; lia | reflexivity]].
  destruct (50 <? String.length (strip content)) eqn:Hlong.
  - apply Nat.ltb_lt in Hlong. rewrite Hcut by assumption.
    split; [lia|]. right. auto.
  - apply Nat.ltb_ge in Hlong. split; [assumption|]. left. auto.
Qed.


Lemma app_string_assoc (a b c : string) : (a ++ b) ++ c = a ++ b ++ c.
Proof.
  induction a as [|x a IH]; simpl; [reflexivity | rewrite IH; reflexivity].
Qed.

Lemma app_string_nil_r (a : string) : a ++ "" = a.
Proof.
  induction a as [|x a IH]; simpl; [reflexivity | rewrite IH; reflexivity].
Qed.

Lemma split_from_chars (s : string) :
  forall word w c,
    In w (PyText.split_from s word) -> In c (list_ascii_of_string w) ->
    In c (list_ascii_of_string word) \/ In c (list_ascii_of_string s).
Proof.
  induction s as [|d s IH]; intros word w c Hw Hc; simpl in Hw.
  - destruct word; [destruct Hw|]. destruct Hw as [<-|[]]. left. assumption.
  - destruct (isspace d).
    + destruct word.
      * destruct (IH _ _ _ Hw Hc) as [[]|Hs]. right. right. assumption.
      * destruct Hw as [<-|Hw]; [left; assumption|].
        destruct (IH _ _ _ Hw Hc) as [[]|Hs]. right. right. assumption.
    + destruct (IH _ _ _ Hw Hc) as [Hin|Hs].
      * rewrite chars_app in Hin. apply in_app_or in Hin.
        destruct Hin as [Hin|[<-|[]]]; [left; assumption | right; left; reflexivity].
      * right. right. assumption.
Qed.

Lemma remove_char_absent (x : ascii) (s : string) :
  ~ In x (list_ascii_of_string s) -> PyText.remove_char x s = s.
Proof.
  induction s as [|d s IH]; simpl; intros Hnot; [reflexivity|].
  destruct (Ascii.eqb d x) eqn:Hd.
  - apply Ascii.eqb_eq in Hd. tauto.
  - rewrite IH by tauto. reflexivity.
Qed.

Lemma split_from_word (w : string) :
  (forall c, In c (list_ascii_of_string w) -> isspace c = false) ->
  forall s word, PyText.split_from (w ++ s) word = PyText.split_from s (word ++ w).
Proof.
  induction w as [|c w IH]; intros Hw s word; simpl.
  - rewrite app_string_nil_r. reflexivity.
  - rewrite (Hw c) by (left; reflexivity).
    rewrite IH by (intros c' Hc'; apply Hw; right; assumption).
    rewrite app_string_assoc. reflexivity.
Qed.

Lemma join_one (sep w : string) : PyText.join sep [w] = w.
Proof. reflexivity. Qed.

Lemma join_more (sep w w' : string) (words : list string) :
  PyText.join sep (w :: w' :: words) = w ++ sep ++ PyText.join sep (w' :: words).
Proof. reflexivity. Qed.

Lemma split_join (words : list string) :
  Forall wordlike words -> PyText.split (PyText.join " " words) = words.
Proof.
  unfold PyText.split.
  induction 1 as [|w words [Hne Hw] Hwords IH]; [reflexivity|].
  destruct words as [|w' words].
  - rewrite join_one. rewrite <- (app_string_nil_r w) at 1.
    rewrite split_from_word by assumption. simpl.
    destruct w; [congruence | reflexivity].
  - rewrite join_more. rewrite split_from_word by assumption.
    change (" " ++ PyText.join " " (w' :: words))
      with (String " " (PyText.join " " (w' :: words))).
    cbn [PyText.split_from append].
    assert (Hsp : isspace " " = true) by reflexivity. rewrite Hsp.
    destruct w; [congruence|]. rewrite IH. reflexivity.
Qed.

Lemma rstrip_wordlike (w : string) :
  (forall c, In c (list_ascii_of_string w) -> isspace c = false) ->
  rstrip w = w.
Proof.
  induction w as [|c w IH]; intros Hw; [reflexivity|].
  cbn [rstrip]. rewrite IH by (intros c' Hc'; apply Hw; right; assumption).
  destruct w; [|reflexivity].
  rewrite (Hw c) by (left; reflexivity). reflexivity.
Qed.

Lemma rstrip_app_fixed (a b : string) :
  b <> "" -> rstrip b = b -> rstrip (a ++ b) = a ++ b.
Proof.
  intros Hne Hb. induction a as [|c a IH]; [assumption|].
  cbn [append rstrip]. rewrite IH.
  destruct (a ++ b) eqn:Hab; [|reflexivity].
  destruct a; simpl in Hab; [congruence | discriminate].
Qed.

Lemma join_wordlike_fixed (words : list string) :
  Forall wordlike words ->
  strip (PyText.join " " words) = PyText.join " " words
  /\ rstrip (PyText.join " " words) = PyText.join " " words
  /\ (words <> [] -> PyText.join " " words <> "").
Proof.
  unfold strip.
  induction 1 as [|w words [Hne Hw] Hwords IH];
    [split; [reflexivity | split; [reflexivity | congruence]]|].
  assert (Hfirst : forall rest, lstrip (w ++ rest) = w ++ rest).
  { intros rest. destruct w as [|c w]; [congruence|]. cbn [append lstrip].
    rewrite (Hw c) by (left; reflexivity). reflexivity. }
  assert (Hfull : forall rest, w ++ rest <> "").
  { intros rest. destruct w; [congruence | discriminate]. }
  destruct words as [|w' words].
  - rewrite join_one. rewrite rstrip_wordlike by assumption.
    split; [|split; [reflexivity|]].
    + rewrite <- (app_string_nil_r w). apply Hfirst.
    + intros _. rewrite <- (app_string_nil_r w). apply Hfull.
  - rewrite join_more. destruct IH as (_ & IH1 & IH2).
    assert (Hr : rstrip (w ++ " " ++ PyText.join " " (w' :: words))
                 = w ++ " " ++ PyText.join " " (w' :: words)).
    { rewrite <- app_string_assoc.
      rewrite rstrip_app_fixed; [reflexivity | apply IH2; discriminate | exact IH1]. }
    rewrite Hr. split; [apply Hfirst | split; [reflexivity | intros _; apply Hfull]].
Qed.

Lemma preprocess_text_no_nul (text : string) :
  PyText.has_char PyText.nul (preprocess_text text) = false.
Proof.
  unfold preprocess_text.
  destruct (PyText.has_char PyText.nul _) eqn:Hnul; [|reflexivity].
  apply has_char_In in Hnul. apply strip_chars in Hnul.
  apply remove_char_chars in Hnul. destruct Hnul as [_ Hne]. congruence.
Qed.

(** X4: on a text without NUL characters [preprocess_text] only
    normalises the whitespace: the result is the words of the text
    joined by single spaces, it has the same words as the text, and
    cleaning it again changes nothing. *)
Theorem preprocess_text_keeps_the_words (text : string) :
  PyText.has_char PyText.nul text = false ->
  preprocess_text text = PyText.join " " (PyText.split text)
  /\ PyText.split (preprocess_text text) = PyText.split text
  /\ preprocess_text (preprocess_text text) = preprocess_text text.
Proof.
  intros Hnul.
  assert (Hwords : Forall wordlike (PyText.split text)).
  { apply split_from_wordlike. intros c []. }
  assert (Hclean : forall t, PyText.has_char PyText.nul t = false ->
                     Forall wordlike (PyText.split t) ->
                     preprocess_text t = PyText.join " " (PyText.split t)).
  { intros t Ht Hw. unfold preprocess_text.
    rewrite remove_char_absent.
    - apply join_wordlike_fixed. assumption.
    - intros Hin. apply join_chars in Hin.
      destruct Hin as [Heq|(w & Hin & Hc)]; [discriminate Heq|].
      destruct (split_from_chars _ _ _ _ Hin Hc) as [[]|Hc'].
      apply has_char_In in Hc'. congruence. }
  assert (Hfirst : preprocess_text text = PyText.join " " (PyText.split text))
    by (apply Hclean; assumption).
  assert (Hsplit : PyText.split (preprocess_text text) = PyText.split text).
  { rewrite Hfirst. apply split_join. assumption. }
  split; [assumption|]. split; [assumption|].
  rewrite Hclean.
  - rewrite Hsplit. symmetry. assumption.
  - apply preprocess_text_no_nul.
  - rewrite Hsplit. assumption.
Qed.

(* ------------------------------------------------------------------ *)
(** ** Nearest first *)

Section OrderByMore.
Variable A : Type.
Variable key : A -> Q.

Lemma insert_by_perm (x : A) (l : list A) :
  Permutation (insert_by key x l) (x :: l).
Proof.
  induction l as [|y l IH]; simpl; [reflexivity|].
  destruct (Qle_bool (key x) (key y)); [reflexivity|].
  rewrite IH. apply perm_swap.
Qed.

Lemma order_by_perm (l : list A) : Permutation (order_by key l) l.
Proof.
  induction l as [|x l IH]; simpl; [reflexivity|].
  rewrite insert_by_perm. constructor. assumption.
Qed.

End OrderByMore.


(* ------------------------------------------------------------------ *)
(** ** What a query leaves behind *)

Section QueryOutcomes.
Context `{Collaborators}.

Lemma relevant_chunks_length (query chat_id : string) (db : Session)
      (top_k : nat) (results : list RelevantChunk) :
  get_relevant_chunks query chat_id db top_k = Ok results ->
  List.length results <= top_k.
Proof.
  unfold get_relevant_chunks.
  destruct (similarity_search query chat_id db top_k) as [found|e] eqn:Hsearch.
  - intros Heq. inversion Heq; subst found.
    apply similarity_search_Ok in Hsearch.
    destruct Hsearch as (qe & id & _ & _ & _ & ->).
    rewrite length_map. unfold similarity_query. apply firstn_le_length.
  - unfold fallback_search. destruct (uuid_UUID chat_id); simpl; [|discriminate].
    intros Heq. inversion Heq. rewrite length_map.
    unfold chunks_of_chat. apply firstn_le_length.
Qed.

Lemma touch_missing_chat (chat : UUID) (now : datetime) (l : list Chat) :
  find (fun c => N.eqb (c_id c) chat) l = None ->
  map (set_updated_at chat now) l = l.
Proof.
  induction l as [|c l IH]; simpl; [reflexivity|].
  unfold set_updated_at at 1.
  destruct (N.eqb (c_id c) chat); [discriminate|].
  intros Hnone. rewrite IH by assumption. reflexivity.
Qed.

(** The three ways a query ends. *)
Lemma query_documents_cases (request : QueryRequest) (now : datetime) (db : DB) :
  (exists detail,
      query_documents request now db = (Raise (HTTPException 500 detail), db))
  \/ (get_relevant_chunks (query request) (chat_id request) (open_session db) 5
      = Ok []
      /\ query_documents request now db
         = (Ok {| q_query := query request;
                  q_response := no_documents_response;
                  q_sources := 0 |}, db))
  \/ (exists r rs chat db',
         get_relevant_chunks (query request) (chat_id request)
                             (open_session db) 5 = Ok (r :: rs)
         /\ uuid_UUID (chat_id request) = Ok chat
         /\ query_documents request now db
            = (Ok {| q_query := query request;
                     q_response :=
                       generate_response rag_system (query request) (r :: rs);
                     q_sources := List.length (r :: rs) |}, db')
         /\ chat_messages db'
            = (chat_messages db
                 ++ [{| m_id := uuid4_next db; m_chat_id := chat;
                        m_message := query request;
                        m_response :=
                          generate_response rag_system (query request) (r :: rs);
                        m_timestamp := now |}])%list
         /\ chats db' = map (set_updated_at chat now) (chats db)
         /\ documents db' = documents db
         /\ document_chunks db' = document_chunks db).
Proof.
  unfold query_documents, query_body.
  destruct (String.eqb (chat_id request) ""); [left; eexists; reflexivity|].
  destruct (get_relevant_chunks (query request) (chat_id request)
                                (open_session db) 5) as [[|r rs]|e].
  - right. left. split; reflexivity.
  - destruct (uuid_UUID (chat_id request)) as [chat|e];
      [|left; eexists; reflexivity].
    right. right. exists r, rs, chat.
    unfold db_add, uuid4, open_session. simpl.
    destruct (find (fun c => N.eqb (c_id c) chat) (chats db)) eqn:Hfind;
      simpl; eexists; repeat split; try reflexivity.
    simpl. symmetry. apply touch_missing_chat. assumption.
  - left. eexists. reflexivity.
Qed.

End QueryOutcomes.

Lemma Forall2_map_right (A B : Type) (R : A -> B -> Prop) (g : A -> B)
      (l : list A) :
  (forall x, In x l -> R x (g x)) -> Forall2 R l (map g l).
Proof.
  induction l as [|x l IH]; simpl; intros HR; constructor.
  - apply HR. left. reflexivity.
  - apply IH. intros y Hy. apply HR. right. assumption.
Qed.

(** X6: a query ends in one of three ways.  It fails, always with
    status 500, and has written nothing; or it returns the no-documents
    response with 0 sources and has written nothing; or it returns an
    answer with 1 to 5 sources and has appended exactly one message,
    which carries the query and that answer. *)
Theorem query_ends_in_one_of_three_ways `{Collaborators}
        (request : QueryRequest) (now : datetime) (db : DB) :
  match query_documents request now db with
  | (Raise e, db') => db' = db /\ exists detail, e = HTTPException 500 detail
  | (Ok answer, db') =>
      q_query answer = query request
      /\ ((q_sources answer = 0
           /\ q_response answer = no_documents_response /\ db' = db)
          \/ (1 <= q_sources answer <= 5
              /\ exists m,
                  chat_messages db' = (chat_messages db ++ [m])%list
                  /\ m_message m = query request
                  /\ m_response m = q_response answer))
  end.
Proof.
  destruct (query_documents_cases request now db)
    as [(detail & ->)|[(_ & ->)|(r & rs & chat & db' & Hget & _ & -> & Hm & _)]].
  - split; [reflexivity | eauto].
  - simpl. split; [reflexivity|]. left. auto.
  - cbn [q_query q_sources q_response]. split; [reflexivity|]. right. split.
    + apply relevant_chunks_length in Hget. simpl in *. lia.
    + eexists. split; [exact Hm|]. split; reflexivity.
Qed.

(** X7: a query changes nothing outside its chat: documents and chunks
    stay as they were, the messages of every other chat stay as they
    were, and every chat keeps its identifier, title and creation time;
    only the queried chat may get a new [updated_at]. *)
Theorem query_touches_only_its_chat `{Collaborators}
        (request : QueryRequest) (chat : UUID) (now : datetime) (db : DB) :
  uuid_UUID (chat_id request) = Ok chat ->
  documents (snd (query_documents request now db)) = documents db
  /\ document_chunks (snd (query_documents request now db)) = document_chunks db
  /\ (forall other, other <> chat ->
        messages_of_chat other (snd (query_documents request now db))
        = messages_of_chat other db)
  /\ Forall2 (fun c c' => c_id c' = c_id c /\ c_title c' = c_title c
                          /\ c_created_at c' = c_created_at c
                          /\ (c_id c <> chat -> c' = c))
             (chats db) (chats (snd (query_documents request now db))).
Proof.
  intros Hid.
  assert (Hsame : Forall2 (fun c c' => c_id c' = c_id c /\ c_title c' = c_title c
                                       /\ c_created_at c' = c_created_at c
                                       /\ (c_id c <> chat -> c' = c))
                          (chats db) (chats db)).
  { rewrite <- (map_id (chats db)) at 2. apply Forall2_map_right.
    intros c _. repeat split; reflexivity. }
  destruct (query_documents_cases request now db)
    as [(detail & ->)|[(_ & ->)|(r & rs & chat' & db' & _ & Hid' & -> & Hm & Hc & Hd & Hk)]];
    simpl; try (repeat split; auto; fail).
  rewrite Hid in Hid'. inversion Hid'; subst chat'.
  split; [assumption|]. split; [assumption|]. split.
  - intros other Hother. unfold messages_of_chat. rewrite Hm.
    rewrite filter_app. simpl.
    assert (Hne : N.eqb chat other = false) by (apply N.eqb_neq; congruence).
    rewrite Hne. apply app_nil_r.
  - rewrite Hc. apply Forall2_map_right. intros c _. unfold set_updated_at.
    destruct (N.eqb (c_id c) chat) eqn:Hc'; simpl; repeat split; try reflexivity.
    apply N.eqb_eq in Hc'. congruence.
Qed.

(* ------------------------------------------------------------------ *)
(** ** Listings *)

Lemma StronglySorted_weaken (A : Type) (R R' : A -> A -> Prop) (l : list A) :
  (forall x y, R x y -> R' x y) -> StronglySorted R l -> StronglySorted R' l.
Proof.
  intros HR. induction 1 as [|x l Hs IH Hx]; constructor; [assumption|].
  eapply Forall_impl; [|exact Hx]. intros y. apply HR.
Qed.

Lemma ascending_le (t t' : datetime) :
  (ascending t <= ascending t')%Q -> (t <= t')%N.
Proof.
  unfold ascending. rewrite <- Zle_Qle. lia.
Qed.

Lemma descending_le (t t' : datetime) :
  (descending t <= descending t')%Q -> (t' <= t)%N.
Proof.
  unfold descending. rewrite <- Zle_Qle. lia.
Qed.

Lemma get_chats_sorted_view `{Collaborators} (db : DB) :
  Permutation (get_chats db) (chats db)
  /\ StronglySorted (fun a b => (c_updated_at b <= c_updated_at a)%N)
                    (get_chats db).
Proof.
  unfold get_chats. split; [apply order_by_perm|].
  eapply StronglySorted_weaken; [|apply order_by_sorted].
  intros a b. unfold by_key. apply descending_le.
Qed.

(** X8: [GET /chats] returns every chat exactly once, the most recently
    updated first. *)
Theorem get_chats_newest_first `{Collaborators} (db : DB) :
  Permutation (get_chats db) (chats db)
  /\ StronglySorted (fun a b => (c_updated_at b <= c_updated_at a)%N)
                    (get_chats db).
Proof.
  unfold get_chats. split; [apply order_by_perm|].
  eapply StronglySorted_weaken; [|apply order_by_sorted].
  intros a b. unfold by_key. apply descending_le.
Qed.

(** X9: the message and document listings of a chat return exactly the
    rows of that chat, each once: the messages oldest first, the
    documents newest first; for an identifier [uuid.UUID] rejects they
    raise what it raised. *)
Theorem chat_listings_are_scoped_and_ordered `{Collaborators}
        (chat_id : string) (db : DB) :
  match uuid_UUID chat_id with
  | Raise e =>
      get_chat_messages chat_id db = Raise e
      /\ get_chat_documents chat_id db = Raise e
  | Ok chat =>
      exists (messages : list ChatMessage) (docs : list Document),
        get_chat_messages chat_id db = Ok messages
        /\ Permutation messages (messages_of_chat chat db)
        /\ StronglySorted (fun a b => (m_timestamp a <= m_timestamp b)%N) messages
        /\ get_chat_documents chat_id db
           = Ok (map (fun doc => {| di_id := d_id doc;
                                    di_filename := d_filename doc;
                                    di_upload_date := d_upload_date doc |}) docs)
        /\ Permutation docs (documents_of_chat chat db)
        /\ StronglySorted (fun a b => (d_upload_date b <= d_upload_date a)%N) docs
  end.
Proof.
  unfold get_chat_messages, get_chat_documents.
  destruct (uuid_UUID chat_id) as [chat|e]; simpl; [|split; reflexivity].
  eexists _, _. split; [reflexivity|]. split; [apply order_by_perm|]. split.
  { eapply StronglySorted_weaken; [|apply order_by_sorted].
    intros a b. unfold by_key. apply ascending_le. }
  split; [reflexivity|]. split; [apply order_by_perm|].
  eapply StronglySorted_weaken; [|apply order_by_sorted].
  intros a b. unfold by_key. apply descending_le.
Qed.

(** X10: an answered query shows up in the listing of its chat: after a
    query that returned an answer with at least one source,
    [GET /chats/{chat_id}/messages] returns one message more than
    before, and among them one with that query and that answer. *)
Theorem answered_query_is_listed `{Collaborators}
        (request : QueryRequest) (chat : UUID) (now : datetime) (db db' : DB)
        (answer : QueryResponse) :
  uuid_UUID (chat_id request) = Ok chat ->
  query_documents request now db = (Ok answer, db') ->
  0 < q_sources answer ->
  exists messages,
    get_chat_messages (chat_id request) db' = Ok messages
    /\ List.length messages = S (List.length (messages_of_chat chat db))
    /\ exists m, In m messages
                 /\ m_message m = query request
                 /\ m_response m = q_response answer
                 /\ m_timestamp m = now.
Proof.
  intros Hid Hrun Hsources.
  destruct (query_documents_cases request now db)
    as [(detail & Hq)|[(_ & Hq)|(r & rs & chat' & db'' & _ & Hid' & Hq & Hm & _)]];
    rewrite Hq in Hrun; inversion Hrun; subst.
  - simpl in Hsources. lia.
  - rewrite Hid in Hid'. inversion Hid'; subst chat'.
    unfold get_chat_messages. rewrite Hid. simpl.
    eexists. split; [reflexivity|]. split.
    + rewrite (Permutation_length (order_by_perm _ _)).
      rewrite Hm, filter_app, length_app. simpl.
      rewrite N.eqb_refl. unfold messages_of_chat. simpl. lia.
    + exists {| m_id := uuid4_next db; m_chat_id := chat;
                m_message := query request;
                m_response :=
                  generate_response rag_system (query request) (r :: rs);
                m_timestamp := now |}.
      split; [|repeat split; reflexivity].
      apply order_by_In. apply filter_In. split.
      * rewrite Hm. apply in_or_app. right. left. reflexivity.
      * simpl. apply N.eqb_refl.
Qed.

(* ------------------------------------------------------------------ *)
(** ** Deleting *)

Lemma filter_out_same (A : Type) (f : A -> bool) (l : list A) :
  filter f (filter (fun x => negb (f x)) l) = [].
Proof.
  induction l as [|x l IH]; simpl; [reflexivity|].
  destruct (f x) eqn:Hx; simpl; [assumption|]. rewrite Hx. assumption.
Qed.

Lemma filter_out_other (A : Type) (f g : A -> bool) (l : list A) :
  (forall x, g x = true -> f x = false) ->
  filter g (filter (fun x => negb (f x)) l) = filter g l.
Proof.
  intros Hfg. induction l as [|x l IH]; simpl; [reflexivity|].
  destruct (f x) eqn:Hx; simpl.
  - destruct (g x) eqn:Hg; [|assumption].
    rewrite (Hfg x Hg) in Hx. discriminate.
  - rewrite IH. reflexivity.
Qed.

Lemma filter_out_twice (A : Type) (f : A -> bool) (l : list A) :
  filter (fun x => negb (f x)) (filter (fun x => negb (f x)) l)
  = filter (fun x => negb (f x)) l.
Proof.
  induction l as [|x l IH]; simpl; [reflexivity|].
  destruct (f x) eqn:Hx; simpl; [assumption|]. rewrite Hx. simpl.
  rewrite IH. reflexivity.
Qed.

Lemma eqb_other (a b c : UUID) : b <> c -> N.eqb a b = true -> N.eqb a c = false.
Proof.
  intros Hne Hab. apply N.eqb_eq in Hab. apply N.eqb_neq. congruence.
Qed.

(** Where the results of a retrieval come from. *)
Lemma relevant_chunks_sources `{Collaborators}
      (query A : string) (db : Session) (top_k : nat)
      (results : list RelevantChunk) :
  get_relevant_chunks query A db top_k = Ok results ->
  exists sources : list DocumentChunk,
    Forall2 (fun r dc => text r = dc_chunk_text dc
                         /\ chunk_index r = dc_chunk_index dc)
            results sources
    /\ Forall (fun dc => In dc (document_chunks (store db))) sources.
Proof.
  unfold get_relevant_chunks.
  destruct (similarity_search query A db top_k) as [found|e] eqn:Hsearch.
  - intros Heq. inversion Heq; subst found.
    apply similarity_search_Ok in Hsearch.
    destruct Hsearch as (qe & a & _ & _ & _ & ->).
    exists (map fst (similarity_query qe a top_k (store db))). split.
    + apply Forall2_map_map. intros row _. split; reflexivity.
    + apply Forall_forall. intros dc Hdc. apply in_map_iff in Hdc.
      destruct Hdc as (row & <- & Hrow).
      eapply similarity_query_In; eauto.
  - unfold fallback_search.
    destruct (uuid_UUID A) as [a|e']; simpl; [|discriminate].
    intros Heq. inversion Heq.
    exists (chunks_of_chat a top_k db). split.
    + rewrite <- (map_id (chunks_of_chat a top_k db)) at 2.
      apply Forall2_map_map. intros dc _. split; reflexivity.
    + apply Forall_forall. intros dc Hdc.
      eapply chunks_of_chat_In; eauto.
Qed.

(** X11: deleting a document removes it and every chunk that refers to
    it and nothing else; the handler reports success whether or not such
    a document existed; deleting again changes nothing; and no retrieval
    afterwards, for any chat, returns a chunk of that document. *)
Theorem deleted_document_is_gone `{Collaborators}
        (document_id : string) (id : UUID) (db : DB) :
  uuid_UUID document_id = Ok id ->
  exists db',
    delete_document document_id db = (Ok "Document deleted successfully", db')
    /\ (forall d, In d (documents db') <-> In d (documents db) /\ d_id d <> id)
    /\ (forall dc, In dc (document_chunks db') <->
                   In dc (document_chunks db) /\ dc_document_id dc <> id)
    /\ chats db' = chats db
    /\ chat_messages db' = chat_messages db
    /\ snd (delete_document document_id db') = db'
    /\ (forall query A top_k results,
          get_relevant_chunks query A (open_session db') top_k = Ok results ->
          exists sources,
            Forall2 (fun r dc => text r = dc_chunk_text dc
                                 /\ chunk_index r = dc_chunk_index dc)
                    results sources
            /\ Forall (fun dc => In dc (document_chunks db)
                                 /\ dc_document_id dc <> id) sources).
Proof.
  intros Hid. unfold delete_document. rewrite Hid. eexists.
  split; [reflexivity|]. cbn [documents document_chunks chats chat_messages].
  assert (Hd : forall d,
             In d (filter (fun d => negb (N.eqb (d_id d) id)) (documents db))
             <-> In d (documents db) /\ d_id d <> id).
  { intros d. rewrite filter_In, negb_true_iff, N.eqb_neq. reflexivity. }
  assert (Hk : forall dc,
             In dc (filter (fun dc => negb (N.eqb (dc_document_id dc) id))
                           (document_chunks db))
             <-> In dc (document_chunks db) /\ dc_document_id dc <> id).
  { intros dc. rewrite filter_In, negb_true_iff, N.eqb_neq. reflexivity. }
  split; [exact Hd|]. split; [exact Hk|].
  split; [reflexivity|]. split; [reflexivity|]. split.
  - simpl.
    rewrite (filter_out_twice (fun d => N.eqb (d_id d) id)).
    rewrite (filter_out_twice (fun dc => N.eqb (dc_document_id dc) id)).
    reflexivity.
  - intros query A top_k results Hget.
    apply relevant_chunks_sources in Hget.
    destruct Hget as (sources & Hshape & Hfrom).
    exists sources. split; [assumption|].
    eapply Forall_impl; [|exact Hfrom]. simpl. intros dc Hdc.
    apply Hk. assumption.
Qed.

(** X12: deleting a chat removes the chat, its messages, its documents
    and its chunks, and leaves every other chat with exactly the
    messages, documents and chunks it had. *)
Theorem deleted_chat_is_erased `{Collaborators}
        (chat_id : string) (chat : UUID) (db : DB) :
  uuid_UUID chat_id = Ok chat ->
  exists db',
    delete_chat chat_id db
    = (Ok "Chat and all associated data deleted successfully", db')
    /\ ~ has_chat chat db'
    /\ messages_of_chat chat db' = []
    /\ documents_of_chat chat db' = []
    /\ indexed_chunks chat db' = []
    /\ (forall other, other <> chat ->
          (has_chat other db' <-> has_chat other db)
          /\ messages_of_chat other db' = messages_of_chat other db
          /\ documents_of_chat other db' = documents_of_chat other db
          /\ indexed_chunks other db' = indexed_chunks other db).
Proof.
  intros Hid. unfold delete_chat. rewrite Hid. eexists.
  split; [reflexivity|].
  unfold has_chat, messages_of_chat, documents_of_chat, indexed_chunks.
  cbn [documents document_chunks chats chat_messages].
  split.
  { intros (c & Hin & Hc). apply filter_In in Hin. destruct Hin as [_ Hkeep].
    rewrite Hc, N.eqb_refl in Hkeep. discriminate. }
  split; [apply (filter_out_same (fun m => N.eqb (m_chat_id m) chat))|].
  split; [apply (filter_out_same (fun d => N.eqb (d_chat_id d) chat))|].
  split; [apply (filter_out_same (fun dc => N.eqb (dc_chat_id dc) chat))|].
  intros other Hother. split; [|split; [|split]].
  - split.
    + intros (c & Hin & Hc). apply filter_In in Hin. exists c. tauto.
    + intros (c & Hin & Hc). exists c. split; [|assumption].
      apply filter_In. split; [assumption|].
      apply negb_true_iff, N.eqb_neq. congruence.
  - apply (filter_out_other (fun m => N.eqb (m_chat_id m) chat)).
    intros m. apply eqb_other. assumption.
  - apply (filter_out_other (fun d => N.eqb (d_chat_id d) chat)).
    intros d. apply eqb_other. assumption.
  - apply (filter_out_other (fun dc => N.eqb (dc_chat_id dc) chat)).
    intros dc. apply eqb_other. assumption.
Qed.



(* ------------------------------------------------------------------ *)
(** ** More on uploads *)

Lemma filter_none (A : Type) (f : A -> bool) (l : list A) :
  Forall (fun x => f x = false) l -> filter f l = [].
Proof.
  induction 1 as [|x l Hx Hl IH]; simpl; [reflexivity|].
  rewrite Hx. assumption.
Qed.

Section UploadOutcomes.
Context `{Collaborators}.

(** What an upload does to the tables, whatever its outcome. *)
Lemma upload_documents_adds (chat_id : string) (chat : UUID)
      (files : list UploadFile) (now : datetime) (db : DB) :
  uuid_UUID chat_id = Ok chat ->
  exists r db' added rows,
    upload_documents chat_id files now db = (r, db')
    /\ chats db' = chats db
    /\ chat_messages db' = chat_messages db
    /\ documents db' = (documents db ++ added)%list
    /\ document_chunks db' = (document_chunks db ++ rows)%list
    /\ Forall (fun d => d_chat_id d = chat) added
    /\ Forall (fun dc => dc_chat_id dc = chat) rows.
Proof.
  intros Hid. unfold upload_documents. rewrite Hid.
  destruct (find (fun c => N.eqb (c_id c) chat) (chats db)).
  2:{ exists (Raise (HTTPException 404 "Chat not found")), db, [], [].
      rewrite !app_nil_r. repeat split; constructor. }
  destruct (upload_loop chat (filenames_of_chat chat db) now files
                        (open_session db) [] []) as [r s] eqn:Hloop.
  apply upload_loop_spec in Hloop; [|reflexivity].
  destruct Hloop as (ingested & Hc & Hm & Hd & Hk & _ & Hi & _).
  assert (Hdocs : Forall (fun d => d_chat_id d = chat) (map fst ingested)).
  { apply Forall_forall. intros d Hin. apply in_map_iff in Hin.
    destruct Hin as (p & <- & Hp). rewrite Forall_forall in Hi.
    apply (Hi p Hp). }
  assert (Hrows : Forall (fun dc => dc_chat_id dc = chat)
                         (List.concat (map snd ingested))).
  { apply Forall_forall. intros dc Hin. apply in_concat in Hin.
    destruct Hin as (rows & Hrows & Hdc). apply in_map_iff in Hrows.
    destruct Hrows as (p & <- & Hp). rewrite Forall_forall in Hi.
    destruct (Hi p Hp) as (Hchat & _ & _ & [Hnone|(chunks & _ & _ & _ & Hown)]).
    - rewrite Hnone in Hdc. destruct Hdc.
    - rewrite Forall_forall in Hown. destruct (Hown dc Hdc) as [_ Hdc'].
      congruence. }
  destruct r as [[uploaded_docs skipped_docs]|e];
    eexists _, (store s), (map fst ingested), (List.concat (map snd ingested));
    (split; [reflexivity|]); simpl in *; auto 10.
Qed.

Lemma calm_files_are_accounted (existing : list string) (files : list UploadFile) :
  (forall file, In file files -> file_error existing file = None) ->
  List.length (filter (is_ingested existing) files)
  + List.length (skip_list existing files) = List.length files.
Proof.
  induction files as [|file rest IH]; intros Hcalm; [reflexivity|].
  assert (Hfile : file_error existing file = None) by (apply Hcalm; left; reflexivity).
  assert (Hrest : List.length (filter (is_ingested existing) rest)
                  + List.length (skip_list existing rest) = List.length rest).
  { apply IH. intros f Hf. apply Hcalm. right. assumption. }
  cbn [filter skip_list]. unfold file_error in Hfile.
  unfold is_ingested at 1. unfold skip_entry.
  destruct (verdict existing file); try discriminate; simpl; lia.
Qed.

End UploadOutcomes.

(** X14: an upload that names no existing chat writes nothing: for an
    identifier [uuid.UUID] rejects it raises what that raised, and for a
    well-formed identifier of no chat it raises 404 "Chat not found",
    whatever the files. *)
Theorem upload_needs_its_chat `{Collaborators}
        (chat_id : string) (files : list UploadFile) (now : datetime) (db : DB) :
  match uuid_UUID chat_id with
  | Raise e => upload_documents chat_id files now db = (Raise e, db)
  | Ok chat =>
      has_chat chat db
      \/ upload_documents chat_id files now db
         = (Raise (HTTPException 404 "Chat not found"), db)
  end.
Proof.
  unfold upload_documents.
  destruct (uuid_UUID chat_id) as [chat|e]; [|reflexivity].
  destruct (find (fun c => N.eqb (c_id c) chat) (chats db)) as [c|] eqn:Hfind.
  - left. apply find_some in Hfind. destruct Hfind as [Hin Hc].
    exists c. split; [assumption | apply N.eqb_eq; assumption].
  - right. reflexivity.
Qed.

(** X15: an upload into one chat, whatever its outcome, leaves every
    other chat alone: the chats and all messages are as they were, no
    stored document or chunk is changed or removed, and the documents
    and chunks of every other chat are exactly what they were. *)
Theorem upload_leaves_other_chats_alone `{Collaborators}
        (chat_id : string) (chat : UUID) (files : list UploadFile)
        (now : datetime) (db : DB) :
  uuid_UUID chat_id = Ok chat ->
  exists r db' added rows,
    upload_documents chat_id files now db = (r, db')
    /\ chats db' = chats db
    /\ chat_messages db' = chat_messages db
    /\ documents db' = (documents db ++ added)%list
    /\ document_chunks db' = (document_chunks db ++ rows)%list
    /\ (forall other, other <> chat ->
          documents_of_chat other db' = documents_of_chat other db
          /\ indexed_chunks other db' = indexed_chunks other db).
Proof.
  intros Hid.
  destruct (upload_documents_adds chat_id files now db Hid)
    as (r & db' & added & rows & Hrun & Hc & Hm & Hd & Hk & Hadded & Hrows).
  exists r, db', added, rows. repeat (split; [assumption|]).
  intros other Hother. unfold documents_of_chat, indexed_chunks.
  rewrite Hd, Hk, !filter_app.
  rewrite (@filter_none _ (fun d => N.eqb (d_chat_id d) other) added).
  - rewrite (@filter_none _ (fun dc => N.eqb (dc_chat_id dc) other) rows).
    + rewrite !app_nil_r. split; reflexivity.
    + eapply Forall_impl; [|exact Hrows]. simpl. intros dc ->.
      apply N.eqb_neq. congruence.
  - eapply Forall_impl; [|exact Hadded]. simpl. intros d ->.
    apply N.eqb_neq. congruence.
Qed.

(** X16: a successful upload accounts for every file of the batch: each
    is either uploaded or skipped, so the two lists together are as long
    as the batch, and the message states the number uploaded. *)
Theorem successful_upload_accounts_for_every_file `{Collaborators}
        (chat_id : string) (files : list UploadFile) (now : datetime)
        (db db' : DB) (response : UploadResponse) :
  upload_documents chat_id files now db = (Ok response, db') ->
  List.length (uploaded response) + List.length (skipped response)
  = List.length files
  /\ up_message response
     = "Successfully uploaded "
         ++ str_of_nat (List.length (uploaded response)) ++ " documents"
  /\ (forall file, In file files ->
        In (uf_filename file) (map up_filename (uploaded response))
        \/ In (uf_filename file) (map sk_filename (skipped response))).
Proof.
  unfold upload_documents.
  destruct (uuid_UUID chat_id) as [chat|e]; [|discriminate].
  destruct (find (fun c => N.eqb (c_id c) chat) (chats db)); [|discriminate].
  destruct (upload_loop chat (filenames_of_chat chat db) now files
                        (open_session db) [] []) as [r s] eqn:Hloop.
  apply upload_loop_spec in Hloop; [|reflexivity].
  destruct Hloop as (ingested & _ & _ & _ & _ & _ & _ & _ & Hr).
  destruct r as [[uploaded_docs skipped_docs]|e]; [|discriminate].
  intros Heq. inversion Heq; subst. cbn [uploaded skipped up_message].
  destruct Hr as (Hcalm & Hsk & Hup & _). simpl in Hsk, Hup.
  split; [|split; [reflexivity|]].
  - rewrite <- (length_map up_filename), Hup, length_map, Hsk.
    apply calm_files_are_accounted. assumption.
  - intros file Hin. rewrite Hup, Hsk.
    destruct (is_ingested (filenames_of_chat chat db) file) eqn:Hing.
    + left. apply in_map. apply filter_In. split; assumption.
    + right. specialize (Hcalm file Hin).
      unfold is_ingested in Hing. unfold file_error in Hcalm.
      assert (Hentry : exists entry,
                 skip_entry (filenames_of_chat chat db) file = Some entry
                 /\ sk_filename entry = uf_filename file).
      { unfold skip_entry.
        destruct (verdict (filenames_of_chat chat db) file); try discriminate;
          eexists; split; reflexivity. }
      destruct Hentry as (entry & Hentry & <-).
      apply in_map. eapply skip_list_In; eauto.
Qed.

Section UploadThenRead.
Context `{Collaborators}.

Lemma skip_list_inv (existing : list string) (files : list UploadFile)
      (entry : SkippedDoc) :
  In entry (skip_list existing files) ->
  exists file, In file files /\ skip_entry existing file = Some entry.
Proof.
  induction files as [|f rest IH]; simpl; [tauto|].
  destruct (skip_entry existing f) as [e|] eqn:Hf.
  - intros [<-|Hin].
    + exists f. auto.
    + destruct (IH Hin) as (file & Hfile & Hentry). exists file. auto.
  - intros Hin. destruct (IH Hin) as (file & Hfile & Hentry). exists file. auto.
Qed.



End UploadThenRead.

(** X17: after a successful upload the document listing of the chat
    shows every file reported as uploaded and every file skipped as
    already existing, and it has grown by exactly the number of files
    uploaded. *)
Theorem uploaded_files_are_listed `{Collaborators}
        (chat_id : string) (files : list UploadFile) (now : datetime)
        (db db' : DB) (response : UploadResponse) :
  upload_documents chat_id files now db = (Ok response, db') ->
  exists (chat : UUID) (before after : list DocumentInfo),
    uuid_UUID chat_id = Ok chat
    /\ get_chat_documents chat_id db = Ok before
    /\ get_chat_documents chat_id db' = Ok after
    /\ List.length after = List.length before + List.length (uploaded response)
    /\ (forall u, In u (uploaded response) ->
          In (up_filename u) (map di_filename after))
    /\ (forall s, In s (skipped response) ->
          sk_reason s = "File already exists in this chat" ->
          In (sk_filename s) (map di_filename after)).
Proof.
  unfold upload_documents, get_chat_documents.
  destruct (uuid_UUID chat_id) as [chat|e]; [|discriminate].
  destruct (find (fun c => N.eqb (c_id c) chat) (chats db)); [|discriminate].
  destruct (upload_loop chat (filenames_of_chat chat db) now files
                        (open_session db) [] []) as [r s] eqn:Hloop.
  apply upload_loop_spec in Hloop; [|reflexivity].
  destruct Hloop as (ingested & _ & _ & Hd & _ & _ & Hi & _ & Hr).
  destruct r as [[uploaded_docs skipped_docs]|e]; [|discriminate].
  intros Heq. inversion Heq; subst. cbn [uploaded skipped bind].
  destruct Hr as (_ & Hsk & Hup & Hnames & _). simpl in Hsk, Hup, Hd.
  assert (Hchat : filter (fun d => N.eqb (d_chat_id d) chat) (map fst ingested)
                  = map fst ingested).
  { apply forallb_filter_id. apply forallb_forall. intros d Hin.
    apply in_map_iff in Hin. destruct Hin as (p & <- & Hp).
    rewrite Forall_forall in Hi. destruct (Hi p Hp) as (-> & _).
    apply N.eqb_refl. }
  assert (Hlisted : forall name,
             In name (map d_filename
                          (filter (fun d => N.eqb (d_chat_id d) chat)
                                  (documents (store s)))) ->
             In name (map di_filename
                          (map (fun doc => {| di_id := d_id doc;
                                              di_filename := d_filename doc;
                                              di_upload_date := d_upload_date doc |})
                               (order_by (fun d => descending (d_upload_date d))
                                         (filter (fun d => N.eqb (d_chat_id d) chat)
                                                 (documents (store s))))))).
  { intros name Hin. rewrite map_map. simpl. apply in_map_iff in Hin.
    destruct Hin as (d & <- & Hd'). apply in_map. apply order_by_In. assumption. }
  exists chat. eexists _, _. split; [reflexivity|]. split; [reflexivity|].
  split; [reflexivity|]. split; [|split].
  - rewrite !length_map.
    rewrite !(Permutation_length (order_by_perm _ _)).
    rewrite Hd, filter_app, length_app, Hchat, length_map.
    rewrite <- (length_map up_filename uploaded_docs), Hup, <- Hnames.
    rewrite length_map. reflexivity.
  - intros u Hu. apply Hlisted. rewrite Hd, filter_app, map_app, Hchat.
    apply in_or_app. right. rewrite map_map.
    change (map (fun x => d_filename (fst x)) ingested)
      with (map (fun p => d_filename (fst p)) ingested).
    rewrite Hnames, <- Hup. apply in_map. assumption.
  - intros entry Hentry Hreason. apply Hlisted.
    rewrite Hd, filter_app, map_app. apply in_or_app. left.
    rewrite Hsk in Hentry. apply skip_list_inv in Hentry.
    destruct Hentry as (file & _ & Hfile). unfold skip_entry in Hfile.
    pose proof (verdict_inv (filenames_of_chat chat db) file) as Hinv.
    destruct (verdict (filenames_of_chat chat db) file); try discriminate;
      inversion Hfile; subst entry; simpl in *.
    + apply contains_In in Hinv. exact Hinv.
    + discriminate Hreason.
Qed.



(* ------------------------------------------------------------------ *)
(** ** Chats and their messages over time *)

(** X20: stored messages are never rewritten.  A query keeps every
    stored message and appends at most one; uploads, document deletions
    and chat creations leave the messages exactly as they were; deleting
    a chat removes messages and creates or changes none. *)
Theorem stored_messages_are_never_rewritten `{Collaborators}
        (request : QueryRequest) (chat_id document_id title : string)
        (files : list UploadFile) (now : datetime) (db : DB) :
  (exists new,
      chat_messages (snd (query_documents request now db))
      = (chat_messages db ++ new)%list
      /\ List.length new <= 1)
  /\ chat_messages (snd (upload_documents chat_id files now db))
     = chat_messages db
  /\ chat_messages (snd (delete_document document_id db)) = chat_messages db
  /\ chat_messages (snd (create_chat title now db)) = chat_messages db
  /\ (forall m, In m (chat_messages (snd (delete_chat chat_id db))) ->
                In m (chat_messages db)).
Proof.
  split; [|split; [|split; [|split]]].
  - destruct (query_documents_cases request now db)
      as [(detail & ->)|[(_ & ->)|(r & rs & chat & db' & _ & _ & -> & Hm & _)]].
    + exists []. rewrite app_nil_r. split; [reflexivity | simpl; lia].
    + exists []. rewrite app_nil_r. split; [reflexivity | simpl; lia].
    + eexists. split; [exact Hm | simpl; lia].
  - unfold upload_documents.
    destruct (uuid_UUID chat_id) as [chat|e]; [|reflexivity].
    destruct (find (fun c => N.eqb (c_id c) chat) (chats db)); [|reflexivity].
    destruct (upload_loop chat (filenames_of_chat chat db) now files
                          (open_session db) [] []) as [r s] eqn:Hloop.
    apply upload_loop_spec in Hloop; [|reflexivity].
    destruct Hloop as (ingested & _ & Hm & _).
    destruct r as [[uploaded_docs skipped_docs]|e]; exact Hm.
  - unfold delete_document. destruct (uuid_UUID document_id); reflexivity.
  - reflexivity.
  - unfold delete_chat. destruct (uuid_UUID chat_id); simpl; [|tauto].
    intros m Hm. apply filter_In in Hm. tauto.
Qed.


(* ------------------------------------------------------------------ *)
(** ** The properties at work in the laboratory *)

Lemma preprocess_text_keeps_the_words_witness :
  preprocess_text Bench.messy = PyText.join " " (PyText.split Bench.messy)
  /\ PyText.split (preprocess_text Bench.messy) = PyText.split Bench.messy
  /\ preprocess_text (preprocess_text Bench.messy) = preprocess_text Bench.messy.
Proof.
  apply (preprocess_text_keeps_the_words Bench.messy). reflexivity.
Defined.


Lemma query_touches_only_its_chat_witness :
  documents (snd (@query_documents Lab.healthy (Lab.ask Lab.chat_a) 7%N Lab.stocked))
  = documents Lab.stocked
  /\ document_chunks
       (snd (@query_documents Lab.healthy (Lab.ask Lab.chat_a) 7%N Lab.stocked))
     = document_chunks Lab.stocked
  /\ (forall other, other <> 10%N ->
        messages_of_chat other
          (snd (@query_documents Lab.healthy (Lab.ask Lab.chat_a) 7%N Lab.stocked))
        = messages_of_chat other Lab.stocked)
  /\ Forall2 (fun c c' => c_id c' = c_id c /\ c_title c' = c_title c
                          /\ c_created_at c' = c_created_at c
                          /\ (c_id c <> 10%N -> c' = c))
             (chats Lab.stocked)
             (chats (snd (@query_documents Lab.healthy (Lab.ask Lab.chat_a) 7%N
                            Lab.stocked))).
Proof.
  apply (@query_touches_only_its_chat Lab.healthy (Lab.ask Lab.chat_a) 10%N 7%N
           Lab.stocked).
  reflexivity.
Defined.

Lemma answered_query_is_listed_witness :
  exists messages,
    @get_chat_messages Lab.healthy Lab.chat_a
       (snd (@query_documents Lab.healthy (Lab.ask Lab.chat_a) 7%N Lab.stocked))
    = Ok messages
    /\ List.length messages = S (List.length (messages_of_chat 10%N Lab.stocked))
    /\ exists m, In m messages
                 /\ m_message m = "hello"
                 /\ m_response m = "It is in the report."
                 /\ m_timestamp m = 7%N.
Proof.
  apply (@answered_query_is_listed Lab.healthy (Lab.ask Lab.chat_a) 10%N 7%N
           Lab.stocked
           (snd (@query_documents Lab.healthy (Lab.ask Lab.chat_a) 7%N Lab.stocked))
           Bench.hello_answer).
  - reflexivity.
  - vm_compute. reflexivity.
  - simpl. lia.
Defined.

Lemma deleted_document_is_gone_witness :
  exists db',
    @delete_document Lab.healthy Bench.report_id Lab.stocked
    = (Ok "Document deleted successfully", db')
    /\ (forall d, In d (documents db') <->
                  In d (documents Lab.stocked) /\ d_id d <> 20%N)
    /\ (forall dc, In dc (document_chunks db') <->
                   In dc (document_chunks Lab.stocked)
                   /\ dc_document_id dc <> 20%N)
    /\ chats db' = chats Lab.stocked
    /\ chat_messages db' = chat_messages Lab.stocked
    /\ snd (@delete_document Lab.healthy Bench.report_id db') = db'
    /\ (forall query A top_k results,
          @get_relevant_chunks Lab.healthy query A (open_session db') top_k
          = Ok results ->
          exists sources,
            Forall2 (fun r dc => text r = dc_chunk_text dc
                                 /\ chunk_index r = dc_chunk_index dc)
                    results sources
            /\ Forall (fun dc => In dc (document_chunks Lab.stocked)
                                 /\ dc_document_id dc <> 20%N) sources).
Proof.
  apply (@deleted_document_is_gone Lab.healthy Bench.report_id 20%N Lab.stocked).
  reflexivity.
Defined.

Lemma deleted_chat_is_erased_witness :
  exists db',
    @delete_chat Lab.healthy Lab.chat_a Lab.stocked
    = (Ok "Chat and all associated data deleted successfully", db')
    /\ ~ has_chat 10%N db'
    /\ messages_of_chat 10%N db' = []
    /\ documents_of_chat 10%N db' = []
    /\ indexed_chunks 10%N db' = []
    /\ (forall other, other <> 10%N ->
          (has_chat other db' <-> has_chat other Lab.stocked)
          /\ messages_of_chat other db' = messages_of_chat other Lab.stocked
          /\ documents_of_chat other db' = documents_of_chat other Lab.stocked
          /\ indexed_chunks other db' = indexed_chunks other Lab.stocked).
Proof.
  apply (@deleted_chat_is_erased Lab.healthy Lab.chat_a 10%N Lab.stocked).
  reflexivity.
Defined.


Lemma upload_leaves_other_chats_alone_witness :
  exists r db' added rows,
    @upload_documents Lab.healthy Lab.chat_a [Lab.notes] 7%N Lab.stocked = (r, db')
    /\ chats db' = chats Lab.stocked
    /\ chat_messages db' = chat_messages Lab.stocked
    /\ documents db' = (documents Lab.stocked ++ added)%list
    /\ document_chunks db' = (document_chunks Lab.stocked ++ rows)%list
    /\ (forall other, other <> 10%N ->
          documents_of_chat other db' = documents_of_chat other Lab.stocked
          /\ indexed_chunks other db' = indexed_chunks other Lab.stocked).
Proof.
  apply (@upload_leaves_other_chats_alone Lab.healthy Lab.chat_a 10%N
           [Lab.notes] 7%N Lab.stocked).
  reflexivity.
Defined.

Lemma successful_upload_accounts_for_every_file_witness :
  List.length (uploaded Bench.mixed_uploaded)
  + List.length (skipped Bench.mixed_uploaded) = 3
  /\ up_message Bench.mixed_uploaded
     = "Successfully uploaded "
         ++ str_of_nat (List.length (uploaded Bench.mixed_uploaded))
         ++ " documents"
  /\ (forall file, In file [Lab.report; Lab.picture; Lab.notes] ->
        In (uf_filename file) (map up_filename (uploaded Bench.mixed_uploaded))
        \/ In (uf_filename file) (map sk_filename (skipped Bench.mixed_uploaded))).
Proof.
  apply (@successful_upload_accounts_for_every_file Lab.healthy Lab.chat_a
           [Lab.report; Lab.picture; Lab.notes] 7%N Lab.stocked
           (snd (@upload_documents Lab.healthy Lab.chat_a
                   [Lab.report; Lab.picture; Lab.notes] 7%N Lab.stocked))
           Bench.mixed_uploaded).
  vm_compute. reflexivity.
Defined.

Lemma uploaded_files_are_listed_witness :
  exists (chat : UUID) (before after : list DocumentInfo),
    @uuid_UUID Lab.healthy Lab.chat_a = Ok chat
    /\ @get_chat_documents Lab.healthy Lab.chat_a Lab.stocked = Ok before
    /\ @get_chat_documents Lab.healthy Lab.chat_a
         (snd (@upload_documents Lab.healthy Lab.chat_a
                 [Lab.report; Lab.picture; Lab.notes] 7%N Lab.stocked))
       = Ok after
    /\ List.length after
       = List.length before + List.length (uploaded Bench.mixed_uploaded)
    /\ (forall u, In u (uploaded Bench.mixed_uploaded) ->
          In (up_filename u) (map di_filename after))
    /\ (forall s, In s (skipped Bench.mixed_uploaded) ->
          sk_reason s = "File already exists in this chat" ->
          In (sk_filename s) (map di_filename after)).
Proof.
  apply (@uploaded_files_are_listed Lab.healthy Lab.chat_a
           [Lab.report; Lab.picture; Lab.notes] 7%N Lab.stocked
           (snd (@upload_documents Lab.healthy Lab.chat_a
                   [Lab.report; Lab.picture; Lab.notes] 7%N Lab.stocked))
           Bench.mixed_uploaded).
  vm_compute. reflexivity.
Defined.



(* ------------------------------------------------------------------ *)
(** ** What every reachable database satisfies *)

Lemma filter_out_all (A : Type) (f g : A -> bool) (l : list A) :
  (forall x, In x l -> g x = true -> f x = true) ->
  filter g (filter (fun x => negb (f x)) l) = [].
Proof.
  induction l as [|x l IH]; intros Hfg; simpl; [reflexivity|].
  assert (Hl : filter g (filter (fun x => negb (f x)) l) = []).
  { apply IH. intros y Hy. apply Hfg. right. assumption. }
  destruct (f x) eqn:Hx; simpl; [assumption|].
  destruct (g x) eqn:Hg; [|assumption].
  rewrite (Hfg x (or_introl eq_refl) Hg) in Hx. discriminate.
Qed.

Lemma filter_out_none (A : Type) (f g : A -> bool) (l : list A) :
  (forall x, In x l -> g x = true -> f x = false) ->
  filter g (filter (fun x => negb (f x)) l) = filter g l.
Proof.
  induction l as [|x l IH]; intros Hfg; simpl; [reflexivity|].
  assert (Hl : filter g (filter (fun x => negb (f x)) l) = filter g l).
  { apply IH. intros y Hy. apply Hfg. right. assumption. }
  destruct (f x) eqn:Hx; simpl.
  - destruct (g x) eqn:Hg; [|assumption].
    rewrite (Hfg x (or_introl eq_refl) Hg) in Hx. discriminate.
  - rewrite Hl. reflexivity.
Qed.

Lemma NoDup_map_filter (A B : Type) (key : A -> B) (f : A -> bool) (l : list A) :
  NoDup (map key l) -> NoDup (map key (filter f l)).
Proof.
  induction l as [|x l IH]; simpl; intros Hnd; [constructor|].
  inversion Hnd as [|k ks Hk Hks]; subst.
  destruct (f x); simpl; [constructor|]; auto.
  intros Hin. apply Hk. apply in_map_iff in Hin.
  destruct Hin as (y & Hy & Hin). apply filter_In in Hin.
  apply in_map_iff. exists y. tauto.
Qed.

Lemma NoDup_map_same (A B : Type) (key : A -> B) (l : list A) (x y : A) :
  NoDup (map key l) -> In x l -> In y l -> key x = key y -> x = y.
Proof.
  induction l as [|z l IH]; simpl; intros Hnd Hx Hy Hkey; [contradiction|].
  inversion Hnd as [|k ks Hk Hks]; subst.
  destruct Hx as [<-|Hx]; destruct Hy as [<-|Hy]; auto.
  - exfalso. apply Hk. rewrite Hkey. apply in_map. assumption.
  - exfalso. apply Hk. rewrite <- Hkey. apply in_map. assumption.
Qed.

Section Kept.
Context `{Collaborators}.

Lemma query_documents_draws (request : QueryRequest) (now : datetime) (db : DB) :
  (uuid4_next db <= uuid4_next (snd (query_documents request now db)))%N.
Proof.
  unfold query_documents, query_body.
  destruct (String.eqb (chat_id request) ""); [simpl; lia|].
  destruct (get_relevant_chunks (query request) (chat_id request)
                                (open_session db) 5) as [[|r rs]|e];
    try (simpl; lia).
  destruct (uuid_UUID (chat_id request)) as [chat|e]; [|simpl; lia].
  unfold db_add, uuid4, open_session. simpl.
  destruct (find (fun c => N.eqb (c_id c) chat) (chats db)); simpl; lia.
Qed.

(** The chunks of one document, among the rows a request has added. *)
Lemma added_chunks_of_document (chat : UUID) (existing : list string)
      (low high : UUID) (id : UUID)
      (ingested : list (Document * list DocumentChunk)) :
  Forall (fun p =>
            d_chat_id (fst p) = chat
            /\ contains (d_filename (fst p)) existing = false
            /\ (low <= d_id (fst p) < high)%N
            /\ (snd p = [] \/ all_chunks_of (fst p) (snd p))) ingested ->
  StronglySorted (fun p q => (d_id (fst p) < d_id (fst q))%N) ingested ->
  let rows := filter (fun dc => N.eqb (dc_document_id dc) id)
                     (List.concat (map snd ingested)) in
  map dc_chunk_index rows = seq 0 (List.length rows)
  /\ ((id < low)%N -> rows = []).
Proof.
  intros Hi Hs. simpl.
  induction Hs as [|p rest Hs IH Hp]; [split; reflexivity|].
  inversion Hi as [|p' rest' (Hc & _ & Hrange & Hrows) Hrest]; subst.
  specialize (IH Hrest). destruct IH as [IH1 IH2].
  cbn [map List.concat]. rewrite filter_app.
  destruct (N.eqb (d_id (fst p)) id) eqn:Hid.
  - apply N.eqb_eq in Hid.
    assert (Hnone : filter (fun dc => N.eqb (dc_document_id dc) id)
                           (List.concat (map snd rest)) = []).
    { apply filter_none. apply Forall_forall. intros dc Hdc.
      apply in_concat in Hdc. destruct Hdc as (rows & Hrows' & Hdc).
      apply in_map_iff in Hrows'. destruct Hrows' as (q & <- & Hq).
      rewrite Forall_forall in Hp, Hrest. specialize (Hp q Hq).
      destruct (Hrest q Hq) as (_ & _ & _ & [Hnil|(chunks & _ & _ & _ & Hown)]).
      - rewrite Hnil in Hdc. destruct Hdc.
      - rewrite Forall_forall in Hown. destruct (Hown dc Hdc) as [Hdoc _].
        apply N.eqb_neq. lia. }
    rewrite Hnone, app_nil_r. split; [|lia].
    destruct Hrows as [Hnil|(chunks & _ & Htexts & Hidx & Hown)].
    + rewrite Hnil. reflexivity.
    + assert (Hall : filter (fun dc => N.eqb (dc_document_id dc) id) (snd p)
                     = snd p).
      { apply forallb_filter_id. apply forallb_forall. intros dc Hdc.
        rewrite Forall_forall in Hown. destruct (Hown dc Hdc) as [Hdoc _].
        apply N.eqb_eq. congruence. }
      rewrite Hall, Hidx. rewrite <- Htexts, length_map. reflexivity.
  - apply N.eqb_neq in Hid.
    assert (Hnone : filter (fun dc => N.eqb (dc_document_id dc) id) (snd p) = []).
    { destruct Hrows as [Hnil|(chunks & _ & _ & _ & Hown)].
      - rewrite Hnil. reflexivity.
      - apply filter_none. eapply Forall_impl; [|exact Hown]. simpl.
        intros dc [Hdoc _]. apply N.eqb_neq. congruence. }
    rewrite Hnone. simpl. split; assumption.
Qed.

End Kept.

Lemma well_kept_same_tables (db db' : DB) :
  documents db' = documents db ->
  document_chunks db' = document_chunks db ->
  (uuid4_next db <= uuid4_next db')%N ->
  well_kept db -> well_kept db'.
Proof.
  intros Hd Hk Hu (Hwf & [Hf1 Hf2] & Hnd & Hc).
  unfold well_kept, chunks_have_documents, ids_are_drawn,
    chunk_indices_contiguous, chunks_of_document.
  rewrite Hd, Hk. repeat split; try assumption.
  - intros d Hin. specialize (Hf1 d Hin). lia.
  - intros dc Hin. specialize (Hf2 dc Hin). lia.
Qed.

Lemma same_document_same_chat (db : DB) (dc dc' : DocumentChunk) :
  chunks_have_documents db ->
  NoDup (map d_id (documents db)) ->
  In dc (document_chunks db) -> In dc' (document_chunks db) ->
  dc_document_id dc = dc_document_id dc' ->
  dc_chat_id dc = dc_chat_id dc'.
Proof.
  intros Hwf Hnd Hdc Hdc' Hsame.
  destruct (Hwf dc Hdc) as (d & Hd & Hid & Hchat).
  destruct (Hwf dc' Hdc') as (d' & Hd' & Hid' & Hchat').
  assert (d = d') by (apply (NoDup_map_same d_id _ _ _ Hnd Hd Hd'); congruence).
  subst d'. congruence.
Qed.

Section KeptByHandlers.
Context `{Collaborators}.

Lemma upload_documents_keeps (chat_id : string) (files : list UploadFile)
      (now : datetime) (db : DB) :
  well_kept db -> well_kept (snd (upload_documents chat_id files now db)).
Proof.
  intros Hkept.
  assert (Hwf' : chunks_have_documents (snd (upload_documents chat_id files now db))).
  { apply upload_documents_keeps_integrity. apply Hkept. }
  destruct Hkept as (Hwf & [Hf1 Hf2] & Hnd & Hc).
  unfold upload_documents in *.
  destruct (uuid_UUID chat_id) as [chat|e]; [|repeat split; assumption].
  destruct (find (fun c => N.eqb (c_id c) chat) (chats db));
    [|repeat split; assumption].
  destruct (upload_loop chat (filenames_of_chat chat db) now files
                        (open_session db) [] []) as [r s] eqn:Hloop.
  apply upload_loop_spec in Hloop; [|reflexivity].
  destruct Hloop as (ingested & _ & _ & Hd & Hk & Hu & Hi & Hs & _).
  simpl in Hd, Hk, Hu, Hi.
  assert (Hstore : well_kept (store s)).
  { split; [|split; [|split]].
    - destruct r as [[uploaded_docs skipped_docs]|e]; exact Hwf'.
    - split.
      + intros d Hin. rewrite Hd in Hin. apply in_app_or in Hin.
        destruct Hin as [Hin|Hin]; [specialize (Hf1 d Hin); lia|].
        apply in_map_iff in Hin. destruct Hin as (p & <- & Hp).
        rewrite Forall_forall in Hi. destruct (Hi p Hp) as (_ & _ & Hrange & _).
        lia.
      + intros dc Hin. rewrite Hk in Hin. apply in_app_or in Hin.
        destruct Hin as [Hin|Hin]; [specialize (Hf2 dc Hin); lia|].
        apply in_concat in Hin. destruct Hin as (rows & Hrows & Hdc).
        apply in_map_iff in Hrows. destruct Hrows as (p & <- & Hp).
        rewrite Forall_forall in Hi.
        destruct (Hi p Hp) as (_ & _ & Hrange & [Hnil|(chunks & _ & _ & _ & Hown)]).
        * rewrite Hnil in Hdc. destruct Hdc.
        * rewrite Forall_forall in Hown. destruct (Hown dc Hdc) as [Hdoc _].
          lia.
    - rewrite Hd, map_app. apply NoDup_app; [assumption| |].
      + rewrite map_map.
        apply sorted_ids_NoDup with (id := fun p => d_id (fst p)). assumption.
      + intros id Hold Hnew. apply in_map_iff in Hold.
        destruct Hold as (d & <- & Hin). specialize (Hf1 d Hin).
        apply in_map_iff in Hnew. destruct Hnew as (d' & Heq & Hin').
        apply in_map_iff in Hin'. destruct Hin' as (p & <- & Hp).
        rewrite Forall_forall in Hi. destruct (Hi p Hp) as (_ & _ & Hrange & _).
        lia.
    - intros id. unfold chunks_of_document. rewrite Hk, filter_app.
      destruct (@added_chunks_of_document _ chat (filenames_of_chat chat db)
                  (uuid4_next db) (uuid4_next (store s)) id ingested Hi Hs)
        as [Hnew Hlow].
      destruct (N.ltb id (uuid4_next db)) eqn:Hlt.
      + apply N.ltb_lt in Hlt. rewrite (Hlow Hlt), app_nil_r. apply Hc.
      + apply N.ltb_ge in Hlt.
        rewrite (@filter_none _ (fun dc => N.eqb (dc_document_id dc) id)
                   (document_chunks db)).
        * exact Hnew.
        * apply Forall_forall. intros dc Hin. specialize (Hf2 dc Hin).
          apply N.eqb_neq. lia. }
  destruct r as [[uploaded_docs skipped_docs]|e]; exact Hstore.
Qed.

Lemma delete_document_keeps (document_id : string) (db : DB) :
  well_kept db -> well_kept (snd (delete_document document_id db)).
Proof.
  intros Hkept.
  assert (Hwf' : chunks_have_documents (snd (delete_document document_id db))).
  { apply delete_document_keeps_integrity. apply Hkept. }
  destruct Hkept as (Hwf & [Hf1 Hf2] & Hnd & Hc).
  unfold delete_document in *.
  destruct (uuid_UUID document_id) as [id|e]; [|repeat split; assumption].
  cbn [snd] in *. split; [exact Hwf'|]. split; [|split].
  - split; cbn [documents document_chunks uuid4_next].
    + intros d Hin. apply filter_In in Hin. apply Hf1. tauto.
    + intros dc Hin. apply filter_In in Hin. apply Hf2. tauto.
  - cbn [documents]. apply NoDup_map_filter. assumption.
  - intros id'. unfold chunks_of_document. cbn [document_chunks].
    destruct (N.eqb id' id) eqn:Hsame.
    + apply N.eqb_eq in Hsame. subst id'.
      rewrite (filter_out_same (fun dc => N.eqb (dc_document_id dc) id)).
      reflexivity.
    + apply N.eqb_neq in Hsame.
      rewrite (filter_out_other (fun dc => N.eqb (dc_document_id dc) id)).
      * apply Hc.
      * intros dc. apply eqb_other. congruence.
Qed.

Lemma delete_chat_keeps (chat_id : string) (db : DB) :
  well_kept db -> well_kept (snd (delete_chat chat_id db)).
Proof.
  intros Hkept.
  assert (Hwf' : chunks_have_documents (snd (delete_chat chat_id db))).
  { apply delete_chat_keeps_integrity. apply Hkept. }
  destruct Hkept as (Hwf & [Hf1 Hf2] & Hnd & Hc).
  unfold delete_chat in *.
  destruct (uuid_UUID chat_id) as [chat|e]; [|repeat split; assumption].
  cbn [snd] in *. split; [exact Hwf'|]. split; [|split].
  - split; cbn [documents document_chunks uuid4_next].
    + intros d Hin. apply filter_In in Hin. apply Hf1. tauto.
    + intros dc Hin. apply filter_In in Hin. apply Hf2. tauto.
  - cbn [documents]. apply NoDup_map_filter. assumption.
  - intros id. unfold chunks_of_document. cbn [document_chunks].
    destruct (filter (fun dc => N.eqb (dc_document_id dc) id) (document_chunks db))
      as [|dc0 rest] eqn:Hold.
    + rewrite (@filter_out_all _ (fun dc => N.eqb (dc_chat_id dc) chat)); [reflexivity|].
      intros dc Hin Hdoc.
      assert (Habs : In dc (filter (fun dc => N.eqb (dc_document_id dc) id)
                                   (document_chunks db))).
      { apply filter_In. split; assumption. }
      rewrite Hold in Habs. destruct Habs.
    + assert (H0 : In dc0 (document_chunks db) /\ dc_document_id dc0 = id).
      { assert (Hin : In dc0 (filter (fun dc => N.eqb (dc_document_id dc) id)
                                     (document_chunks db)))
          by (rewrite Hold; left; reflexivity).
        apply filter_In in Hin. destruct Hin as [Hin Hdoc].
        apply N.eqb_eq in Hdoc. auto. }
      destruct H0 as [Hin0 Hdoc0].
      destruct (N.eqb (dc_chat_id dc0) chat) eqn:Hchat0.
      * rewrite (@filter_out_all _ (fun dc => N.eqb (dc_chat_id dc) chat));
          [reflexivity|].
        intros dc Hin Hdoc. apply N.eqb_eq in Hdoc.
        rewrite (@same_document_same_chat db dc dc0 Hwf Hnd Hin Hin0)
          by congruence.
        assumption.
      * rewrite (@filter_out_none _ (fun dc => N.eqb (dc_chat_id dc) chat)).
        -- rewrite Hold. specialize (Hc id). unfold chunks_of_document in Hc.
           rewrite Hold in Hc. exact Hc.
        -- intros dc Hin Hdoc. apply N.eqb_eq in Hdoc.
           rewrite (@same_document_same_chat db dc dc0 Hwf Hnd Hin Hin0)
             by congruence.
           assumption.
Qed.

End KeptByHandlers.

(** X22: every database the handlers can produce from empty tables is
    well kept: each chunk has its document, in the same chat; no two
    documents share an identifier; and the chunks of each document are
    numbered 0, 1, 2, ... in table order. *)
Theorem reachable_databases_are_well_kept `{Collaborators} (db : DB) :
  reachable db ->
  chunks_have_documents db
  /\ NoDup (map d_id (documents db))
  /\ (forall d, In d (documents db) ->
        map dc_chunk_index (chunks_of_document (d_id d) db)
        = seq 0 (List.length (chunks_of_document (d_id d) db))).
Proof.
  intros Hreach.
  assert (Hkept : well_kept db).
  { induction Hreach as [seed|db title now _ IH|db chat_id files now _ IH
                         |db request now _ IH|db document_id _ IH|db chat_id _ IH].
    - split; [intros dc []|]. split; [split; intros x []|].
      split; [constructor | intros id; reflexivity].
    - eapply well_kept_same_tables; [| | |exact IH]; try reflexivity.
      simpl. lia.
    - apply upload_documents_keeps. assumption.
    - destruct (query_documents_keeps_documents request now db) as [Hd Hk].
      eapply well_kept_same_tables; [exact Hd|exact Hk| |exact IH].
      apply query_documents_draws.
    - apply delete_document_keeps. assumption.
    - apply delete_chat_keeps. assumption. }
  destruct Hkept as (Hwf & _ & Hnd & Hc).
  split; [assumption|]. split; [assumption|]. intros d _. apply Hc.
Qed.

(* ------------------------------------------------------------------ *)
(** ** Requests one after another *)

(** X23: an answered query moves its chat to the top: when the query is
    later than every stored [updated_at], [GET /chats] afterwards lists
    the queried chat first, stamped with the time of the query. *)
Theorem answered_chat_is_listed_first `{Collaborators}
        (request : QueryRequest) (chat : UUID) (now : datetime) (db db' : DB)
        (answer : QueryResponse) :
  uuid_UUID (chat_id request) = Ok chat ->
  has_chat chat db ->
  (forall c, In c (chats db) -> (c_updated_at c < now)%N) ->
  query_documents request now db = (Ok answer, db') ->
  0 < q_sources answer ->
  exists c rest,
    get_chats db' = c :: rest /\ c_id c = chat /\ c_updated_at c = now.
Proof.
  intros Hid (c0 & Hin0 & Hc0) Hold Hrun Hsources.
  destruct (query_documents_cases request now db)
    as [(detail & Hq)|[(_ & Hq)|(r & rs & chat' & db'' & _ & Hid' & Hq & _ & Hc & _)]];
    rewrite Hq in Hrun; inversion Hrun; subst.
  { simpl in Hsources. lia. }
  rewrite Hid in Hid'. inversion Hid'; subst chat'.
  pose proof (get_chats_sorted_view db') as [Hperm Hsorted].
  assert (Htouched : In (set_updated_at (c_id c0) now c0) (get_chats db')).
  { apply (Permutation_in _ (Permutation_sym Hperm)). rewrite Hc.
    apply in_map. assumption. }
  destruct (get_chats db') as [|c rest] eqn:Hlist; [destruct Htouched|].
  exists c, rest. split; [reflexivity|].
  assert (Hc_in : In c (chats db')).
  { apply (Permutation_in _ Hperm). left. reflexivity. }
  rewrite Hc in Hc_in. apply in_map_iff in Hc_in.
  destruct Hc_in as (c1 & Hc1 & Hin1).
  assert (Hnow : (now <= c_updated_at c)%N).
  { destruct Htouched as [Heq|Hrest].
    - rewrite Heq. unfold set_updated_at. rewrite N.eqb_refl. simpl. lia.
    - inversion Hsorted as [|? ? _ Hall]; subst.
      rewrite Forall_forall in Hall. specialize (Hall _ Hrest).
      unfold set_updated_at in Hall. rewrite N.eqb_refl in Hall. exact Hall. }
  unfold set_updated_at in Hc1.
  destruct (N.eqb (c_id c1) (c_id c0)) eqn:Hsame.
  - apply N.eqb_eq in Hsame. subst c. simpl. auto.
  - subst c. specialize (Hold c1 Hin1). lia.
Qed.

Section BatchesInSequence.
Context `{Collaborators}.



(** A batch of files that are all skipped does nothing. *)
Lemma upload_loop_all_skipped (chat : UUID) (existing : list string)
      (now : datetime) (files : list UploadFile) :
  (forall file, In file files ->
     verdict existing file = Duplicate \/ verdict existing file = Unsupported) ->
  forall db uploaded_docs skipped_docs,
    pending db = [] ->
    exists skipped_docs',
      upload_loop chat existing now files db uploaded_docs skipped_docs
      = (Ok (uploaded_docs, skipped_docs'), db)
      /\ List.length skipped_docs'
         = List.length skipped_docs + List.length files.
Proof.
  induction files as [|file rest IH];
    intros Hall db uploaded_docs skipped_docs Hpending.
  - exists skipped_docs. split; [reflexivity | simpl; lia].
  - cbn [upload_loop].
    destruct (@upload_file_spec _ chat existing now file db Hpending)
      as (db1 & _ & _ & _ & Hstep).
    assert (Hrest : forall f, In f rest ->
               verdict existing f = Duplicate \/ verdict existing f = Unsupported).
    { intros f Hf. apply Hall. right. assumption. }
    destruct (Hall file (or_introl eq_refl)) as [Hv|Hv]; rewrite Hv in Hstep;
      destruct Hstep as (-> & Hrun); rewrite Hrun;
      match goal with
      | |- context [upload_loop _ _ _ rest db uploaded_docs ?sk] =>
          destruct (IH Hrest db uploaded_docs sk Hpending) as (sk' & Hloop & Hlen)
      end;
      exists sk'; (split; [exact Hloop|]);
      rewrite Hlen, length_app; simpl; lia.
Qed.

End BatchesInSequence.


(** X25: uploading a batch again changes nothing: after a successful
    upload, the same files sent once more to the same chat are all
    skipped, none is uploaded, and the database stays as it is. *)
Theorem second_upload_changes_nothing `{Collaborators}
        (chat_id : string) (files : list UploadFile) (now later : datetime)
        (db db' : DB) (response : UploadResponse) :
  upload_documents chat_id files now db = (Ok response, db') ->
  exists again : UploadResponse,
    upload_documents chat_id files later db' = (Ok again, db')
    /\ uploaded again = []
    /\ List.length (skipped again) = List.length files.
Proof.
  unfold upload_documents.
  destruct (uuid_UUID chat_id) as [chat|e]; [|discriminate].
  destruct (find (fun c => N.eqb (c_id c) chat) (chats db)) as [c|] eqn:Hfind;
    [|discriminate].
  destruct (upload_loop chat (filenames_of_chat chat db) now files
                        (open_session db) [] []) as [r s] eqn:Hloop.
  apply upload_loop_spec in Hloop; [|reflexivity].
  destruct Hloop as (ingested & Hc & _ & Hd & _ & _ & Hi & _ & Hr).
  destruct r as [[uploaded_docs skipped_docs]|e]; [|discriminate].
  intros Heq. inversion Heq; subst. clear Heq.
  destruct Hr as (Hcalm & _ & _ & Hnames & _). simpl in Hc, Hd.
  rewrite Hc, Hfind.
  assert (Hnow : forall name,
             In name (filenames_of_chat chat db)
             \/ In name (map (fun p => d_filename (fst p)) ingested) ->
             In name (filenames_of_chat chat (store s))).
  { intros name Hin. unfold filenames_of_chat. rewrite Hd, filter_app, map_app.
    apply in_or_app. destruct Hin as [Hin|Hin]; [left; exact Hin|right].
    apply in_map_iff in Hin. destruct Hin as (p & <- & Hp).
    apply in_map. apply filter_In. split; [apply in_map; assumption|].
    rewrite Forall_forall in Hi. destruct (Hi p Hp) as (-> & _).
    apply N.eqb_refl. }
  assert (Hall : forall file, In file files ->
             verdict (filenames_of_chat chat (store s)) file = Duplicate
             \/ verdict (filenames_of_chat chat (store s)) file = Unsupported).
  { intros file Hin. specialize (Hcalm file Hin). unfold file_error in Hcalm.
    pose proof (verdict_inv (filenames_of_chat chat db) file) as Hinv.
    assert (Hing : is_ingested (filenames_of_chat chat db) file = true ->
                   In (uf_filename file)
                      (map (fun p => d_filename (fst p)) ingested)).
    { intros Htrue. rewrite Hnames. apply in_map. apply filter_In. auto. }
    unfold is_ingested in Hing. unfold verdict at 1 2.
    destruct (verdict (filenames_of_chat chat db) file); try discriminate.
    - apply contains_In in Hinv.
      assert (Hin' : contains (uf_filename file)
                              (filenames_of_chat chat (store s)) = true)
        by (apply contains_In; apply Hnow; left; assumption).
      rewrite Hin'. left. reflexivity.
    - destruct Hinv as (_ & Hext).
      destruct (contains (uf_filename file) (filenames_of_chat chat (store s)));
        [left; reflexivity|]. rewrite Hext. right. reflexivity.
    - assert (Hin' : contains (uf_filename file)
                              (filenames_of_chat chat (store s)) = true)
        by (apply contains_In; apply Hnow; right; apply Hing; reflexivity).
      rewrite Hin'. left. reflexivity. }
  destruct (@upload_loop_all_skipped _ chat (filenames_of_chat chat (store s))
              later files Hall (open_session (store s)) [] [] eq_refl)
    as (sk' & Hagain & Hlen).
  rewrite Hagain. eexists. split; [reflexivity|]. split; [reflexivity|].
  simpl in *. exact Hlen.
Qed.

Lemma stored_messages_are_never_rewritten_witness :
  (exists new,
      chat_messages (snd (@query_documents Lab.healthy (Lab.ask Lab.chat_a) 7%N
                            Lab.stocked))
      = (chat_messages Lab.stocked ++ new)%list
      /\ List.length new <= 1)
  /\ chat_messages (snd (@upload_documents Lab.healthy Lab.chat_a [Lab.notes]
                           7%N Lab.stocked))
     = chat_messages Lab.stocked
  /\ chat_messages (snd (@delete_document Lab.healthy Bench.report_id Lab.stocked))
     = chat_messages Lab.stocked
  /\ chat_messages (snd (create_chat "c" 7%N Lab.stocked))
     = chat_messages Lab.stocked
  /\ (forall m, In m (chat_messages
                        (snd (@delete_chat Lab.healthy Lab.chat_a Lab.stocked))) ->
                In m (chat_messages Lab.stocked)).
Proof.
  apply (@stored_messages_are_never_rewritten Lab.healthy (Lab.ask Lab.chat_a)
           Lab.chat_a Bench.report_id "c" [Lab.notes] 7%N Lab.stocked).
Defined.


Lemma reachable_databases_are_well_kept_witness :
  chunks_have_documents Bench.served
  /\ NoDup (map d_id (documents Bench.served))
  /\ (forall d, In d (documents Bench.served) ->
        map dc_chunk_index (chunks_of_document (d_id d) Bench.served)
        = seq 0 (List.length (chunks_of_document (d_id d) Bench.served))).
Proof.
  apply (@reachable_databases_are_well_kept Lab.healthy Bench.served).
  unfold Bench.served.
  apply (@reach_upload Lab.healthy). apply (@reach_create_chat Lab.healthy).
  apply (@reach_empty Lab.healthy).
Defined.

Lemma answered_chat_is_listed_first_witness :
  exists c rest,
    @get_chats (snd (@query_documents Lab.healthy (Lab.ask Lab.chat_b) 7%N
                       Lab.stocked))
    = c :: rest
    /\ c_id c = 11%N /\ c_updated_at c = 7%N.
Proof.
  apply (@answered_chat_is_listed_first Lab.healthy (Lab.ask Lab.chat_b) 11%N
           7%N Lab.stocked
           (snd (@query_documents Lab.healthy (Lab.ask Lab.chat_b) 7%N Lab.stocked))
           {| q_query := "hello"; q_response := "It is in the report.";
              q_sources := 1 |}).
  - reflexivity.
  - exists (Lab.a_chat 11%N "b"). split; [right; left; reflexivity | reflexivity].
  - intros c [<-|[<-|[]]]; reflexivity.
  - vm_compute. reflexivity.
  - simpl. lia.
Defined.


Lemma second_upload_changes_nothing_witness :
  exists again : UploadResponse,
    @upload_documents Lab.healthy Lab.chat_a
       [Lab.report; Lab.picture; Lab.notes] 9%N
       (snd (@upload_documents Lab.healthy Lab.chat_a
               [Lab.report; Lab.picture; Lab.notes] 7%N Lab.stocked))
    = (Ok again,
       snd (@upload_documents Lab.healthy Lab.chat_a
              [Lab.report; Lab.picture; Lab.notes] 7%N Lab.stocked))
    /\ uploaded again = []
    /\ List.length (skipped again) = 3.
Proof.
  apply (@second_upload_changes_nothing Lab.healthy Lab.chat_a
           [Lab.report; Lab.picture; Lab.notes] 7%N 9%N Lab.stocked
           (snd (@upload_documents Lab.healthy Lab.chat_a
                   [Lab.report; Lab.picture; Lab.notes] 7%N Lab.stocked))
           Bench.mixed_uploaded).
  vm_compute. reflexivity.
Defined.
